(** * Employee attrition prediction: the preprocessing pipeline of model.py

    A shallow embedding of [preprocess_input], of the two prediction
    paths of [main_app] (CSV upload and manual form) and of the login gate
    ([check_login], [logout]) from [src/model.py], together with the
    pandas operations those functions call
    ([pd.cut], [pd.get_dummies], column selection and assignment).

    Conventions.
    - A numeric cell is [option Q]: [None] is NaN, [Some q] a finite number
      (every finite int64 or float64 is a rational, and the only arithmetic
      done on cells by the modelled code is comparison against bin edges).
    - A text cell is [option string], [None] being a missing value.
    - A pandas DataFrame is its number of rows together with the ordered
      list of its labelled columns.  Labels are unique in the frames the
      program handles ([read_csv] renames repeated headers, the form builds
      its frame from a dict), so a label is read by its first column.
    - Text is compared and sorted byte-wise, which on UTF-8 text is the
      code-point order Python uses.
    - Python exceptions are values of [exn]; the caller's DataFrame, which
      [preprocess_input] mutates, is threaded as explicit state. *)

From Stdlib Require Import String Ascii List Bool Arith ZArith QArith Lia Lqa.
From Stdlib Require Import Permutation.
From Stdlib Require OrderedTypeEx.
Import ListNotations.
Open Scope string_scope.
Open Scope list_scope.

(** ** Exceptions and results *)

Inductive exn : Type :=
| KeyError (label : string)
| TypeError
| ValueError
| IndexError
| ZeroDivisionError.

Inductive result (A : Type) : Type :=
| Ok (a : A)
| Raise (e : exn).
Arguments Ok {A} a.
Arguments Raise {A} e.

Definition rbind {A B} (r : result A) (k : A -> result B) : result B :=
  match r with
  | Ok a => k a
  | Raise e => Raise e
  end.

Fixpoint rmap {A B} (f : A -> result B) (l : list A) : result (list B) :=
  match l with
  | [] => Ok []
  | x :: xs => rbind (f x) (fun y => rbind (rmap f xs) (fun ys => Ok (y :: ys)))
  end.

(** ** Columns and frames *)

Definition num := option Q.
Definition txt := option string.

(** The three dtypes the pipeline meets: numeric (int64/float64), object
    (Python strings) and category (a fixed list of categories plus, per row,
    one of them or NaN). *)
Inductive column : Type :=
| NumCol (vals : list num)
| ObjCol (vals : list txt)
| CatCol (categories : list string) (vals : list txt).

Definition col_len (c : column) : nat :=
  match c with
  | NumCol v => length v
  | ObjCol v => length v
  | CatCol _ v => length v
  end.

Record DataFrame : Type := mkDF {
  nrows : nat;
  columns : list (string * column)
}.

Definition labels_of (cols : list (string * column)) : list string :=
  map fst cols.

Fixpoint lookup (label : string) (cols : list (string * column)) : option column :=
  match cols with
  | [] => None
  | (l, c) :: rest => if String.eqb label l then Some c else lookup label rest
  end.

(** [label in df.columns] *)
Definition has_column (df : DataFrame) (label : string) : bool :=
  match lookup label (columns df) with
  | Some _ => true
  | None => false
  end.

(** [df[label]]: KeyError when the label is absent. *)
Definition getitem (df : DataFrame) (label : string) : result column :=
  match lookup label (columns df) with
  | Some c => Ok c
  | None => Raise (KeyError label)
  end.

(** [df[label] = col]: an existing column is replaced where it stands, a new
    one is appended after the last column. *)
Fixpoint set_col (label : string) (c : column) (cols : list (string * column))
  : list (string * column) :=
  match cols with
  | [] => [(label, c)]
  | (l, c0) :: rest =>
      if String.eqb label l then (l, c) :: rest
      else (l, c0) :: set_col label c rest
  end.

Definition setitem (df : DataFrame) (label : string) (c : column) : DataFrame :=
  mkDF (nrows df) (set_col label c (columns df)).

(** [df[label] = values] for a Python list or array: pandas raises ValueError
    when the length differs from the length of the index. *)
Definition setitem_values (df : DataFrame) (label : string) (c : column)
  : result DataFrame :=
  if Nat.eqb (col_len c) (nrows df) then Ok (setitem df label c)
  else Raise ValueError.

(** [df[label] = x] for a scalar [x]: broadcast over the index. *)
Definition setitem_scalar (df : DataFrame) (label : string) (x : Q) : DataFrame :=
  setitem df label (NumCol (repeat (Some x) (nrows df))).

(** [df[labels]] for a list of labels: a new frame holding those columns in
    the order asked; KeyError when one is absent. *)
Definition getitems (df : DataFrame) (labels : list string) : result DataFrame :=
  rbind (rmap (fun l => rbind (getitem df l) (fun c => Ok (l, c))) labels)
        (fun cols => Ok (mkDF (nrows df) cols)).

(** ** pd.cut(x, bins=..., labels=..., right=False) *)

(** [bins.searchsorted(x, side="right")] on increasing [bins]: the number of
    edges that are [<= x]. *)
Fixpoint searchsorted_right (bins : list Q) (x : Q) : nat :=
  match bins with
  | [] => 0
  | b :: rest => if Qle_bool b x then S (searchsorted_right rest x) else 0
  end.

(** One cell of [_bins_to_cuts]: NaN, an index of 0 (below the first edge)
    and an index of [len(bins)] (at or above the last edge) are masked to NaN;
    any other index [i] takes [labels[i-1]]. *)
Definition cut_value (bins : list Q) (labels : list string) (x : num) : txt :=
  match x with
  | None => None
  | Some q =>
      let id := searchsorted_right bins q in
      if Nat.eqb id 0 || Nat.eqb id (length bins) then None
      else nth_error labels (id - 1)
  end.

Fixpoint strictly_increasing (bins : list Q) : bool :=
  match bins with
  | [] => true
  | b :: rest =>
      match rest with
      | [] => true
      | b' :: _ => negb (Qle_bool b' b) && strictly_increasing rest
      end
  end.

Fixpoint distinct (l : list string) : bool :=
  match l with
  | [] => true
  | x :: rest => negb (existsb (String.eqb x) rest) && distinct rest
  end.

(** A cell of text, as opposed to a missing value. *)
Definition is_text (v : txt) : bool :=
  match v with
  | Some _ => true
  | None => false
  end.

(** [pd.cut]: the edges must increase without repetition, the labels must be
    unique and one fewer than the edges (ValueError otherwise).  A numeric
    input is binned cell by cell.  Text cannot be compared with the edges
    (TypeError); an object column with no text in it, empty or all missing,
    is compared with nothing and comes back all NaN.  The result has dtype
    category, its categories being all of [labels], observed or not. *)
Definition pd_cut (x : column) (bins : list Q) (labels : list string)
  : result column :=
  if negb (strictly_increasing bins) then Raise ValueError
  else if negb (distinct labels) then Raise ValueError
  else if negb (Nat.eqb (length labels) (length bins - 1)) then Raise ValueError
  else match x with
       | NumCol vals => Ok (CatCol labels (map (cut_value bins labels) vals))
       | ObjCol vals =>
           if existsb is_text vals then Raise TypeError
           else Ok (CatCol labels (map (fun _ => None) vals))
       | CatCol _ _ => Raise TypeError
       end.

(** The constants of [preprocess_input]. *)
Definition age_bins : list Q := [21; 29; 37; 46; 54; 62]%Q.
Definition age_labels : list string := ["21-28"; "29-36"; "37-45"; "46-53"; "54-61"].
Definition tenure_bins : list Q := [0; 6; 12; 18; 24; 30]%Q.
Definition tenure_labels : list string := ["0-5"; "6-11"; "12-17"; "18-23"; "24-29"].
Definition salary_bins : list Q := [40000; 60000; 80000; 100000; 130000]%Q.
Definition salary_labels : list string := ["low"; "medium"; "high"; "very_high"].

Definition age_group_of (x : Q) : txt := cut_value age_bins age_labels (Some x).
Definition tenure_group_of (x : Q) : txt := cut_value tenure_bins tenure_labels (Some x).
Definition salary_bin_of (x : Q) : txt := cut_value salary_bins salary_labels (Some x).

(** ** pd.get_dummies(df, drop_first=True) *)

Definition observed (vals : list txt) : list string :=
  flat_map (fun v => match v with Some s => [s] | None => [] end) vals.

Fixpoint insert_sorted (s : string) (l : list string) : list string :=
  match l with
  | [] => [s]
  | x :: rest => if String.leb s x then s :: l else x :: insert_sorted s rest
  end.

Definition sort_strings (l : list string) : list string :=
  fold_right insert_sorted [] l.

(** Columns of dtype object or category are encoded, numeric ones pass. *)
Definition is_encoded (c : column) : bool :=
  match c with
  | NumCol _ => false
  | _ => true
  end.

Definition cells_of (c : column) : list txt :=
  match c with
  | NumCol _ => []
  | ObjCol vals => vals
  | CatCol _ vals => vals
  end.

(** [factorize_from_iterable]: a category column contributes all its
    categories; an object column the sorted distinct values it holds, NaN
    left out. *)
Definition levels_of (c : column) : list string :=
  match c with
  | NumCol _ => []
  | ObjCol vals => sort_strings (nodup string_dec (observed vals))
  | CatCol categories _ => categories
  end.

(** One cell of the indicator column of [level]; a NaN row is all zeros. *)
Definition indicator (level : string) (v : txt) : num :=
  match v with
  | Some s => if String.eqb s level then Some 1%Q else Some 0%Q
  | None => Some 0%Q
  end.

Definition dummy_column (prefix : string) (c : column) (level : string)
  : string * column :=
  ((prefix ++ "_" ++ level)%string, NumCol (map (indicator level) (cells_of c))).

(** [_get_dummies_1d] with [dummy_na=False], [drop_first=True]: no level, or
    a single level, gives an empty frame; otherwise one indicator column per
    level but the first. *)
Definition get_dummies_1d (prefix : string) (c : column) : list (string * column) :=
  match levels_of c with
  | [] => []
  | [_] => []
  | _ :: rest => map (dummy_column prefix c) rest
  end.

(** [get_dummies]: the columns that are not encoded come first, then the
    indicator columns of each encoded column, in column order. *)
Definition get_dummies (df : DataFrame) : DataFrame :=
  mkDF (nrows df)
       (filter (fun lc => negb (is_encoded (snd lc))) (columns df)
        ++ flat_map (fun lc => get_dummies_1d (fst lc) (snd lc))
                    (filter (fun lc => is_encoded (snd lc)) (columns df))).

(** ** Alignment with the model columns *)

(** [set(model_columns) - set(encoded_df.columns)], listed in the order of
    first occurrence in [model_columns] (the set's iteration order does not
    show in the result, see [add_columns_lookup]). *)
Definition missing_cols (model_columns : list string) (encoded_df : DataFrame)
  : list string :=
  nodup string_dec
        (filter (fun c => negb (has_column encoded_df c)) model_columns).

(** [for col in cols: encoded_df[col] = 0] *)
Definition add_columns (cols : list string) (encoded_df : DataFrame) : DataFrame :=
  fold_left (fun d c => setitem_scalar d c 0) cols encoded_df.

Definition align (model_columns : list string) (encoded_df : DataFrame)
  : result DataFrame :=
  getitems (add_columns (missing_cols model_columns encoded_df) encoded_df)
           model_columns.

(** ** Handing a frame to the scaler *)

Definition as_numeric (c : column) : result (list num) :=
  match c with
  | NumCol v => Ok v
  | _ => Raise ValueError
  end.

(** The frame as a list of rows; a non-numeric column cannot be converted. *)
Definition to_matrix (df : DataFrame) : result (list (list num)) :=
  rbind (rmap (fun lc => as_numeric (snd lc)) (columns df))
        (fun cols =>
           Ok (map (fun i => map (fun v => nth i v None) cols)
                   (seq 0 (nrows df)))).

(** ** The caller's frame as state *)

Definition M (A : Type) : Type := DataFrame -> result A * DataFrame.

Definition ret {A} (a : A) : M A := fun df => (Ok a, df).

Definition bind {A B} (m : M A) (k : A -> M B) : M B :=
  fun df =>
    match m df with
    | (Ok a, df') => k a df'
    | (Raise e, df') => (Raise e, df')
    end.

Definition lift {A} (r : result A) : M A := fun df => (r, df).

Definition get_column (label : string) : M column :=
  fun df => (getitem df label, df).

Definition assign (label : string) (c : column) : M unit :=
  fun df => (Ok tt, setitem df label c).

Definition select (labels : list string) : M DataFrame :=
  fun df => (getitems df labels, df).

Notation "x <- m ;; k" := (bind m (fun x => k))
  (at level 61, m at next level, right associativity).
Notation "m ;;; k" := (bind m (fun _ => k))
  (at level 61, right associativity).

Definition features : list string :=
  ["no_of_projects"; "salary_bin"; "age_group"; "tenure_group";
   "dept_name"; "title"; "sex"; "Last_performance_rating"].

Definition required_cols : list string :=
  ["age"; "tenure"; "salary"; "dept_name"; "title";
   "sex"; "Last_performance_rating"; "no_of_projects"].

(** Values shown to the user by [main_app]. *)
Inductive display : Type :=
| Report (df : DataFrame) (total stay leave : nat)
| StError (text : string)
| WillLeave (probability : Q)
| WillStay (probability : Q)
| Uncaught (e : exn).

(** The widgets of the manual form. *)
Record form : Type := mkForm {
  f_no_of_projects : Z;
  f_salary : Z;
  f_age : Z;
  f_tenure : Z;
  f_dept_name : string;
  f_title : string;
  f_sex : string;
  f_rating : string
}.


Definition form_frame (f : form) : DataFrame :=
  mkDF 1
    [("age", NumCol [Some (inject_Z (f_age f))]);
     ("tenure", NumCol [Some (inject_Z (f_tenure f))]);
     ("salary", NumCol [Some (inject_Z (f_salary f))]);
     ("no_of_projects", NumCol [Some (inject_Z (f_no_of_projects f))]);
     ("dept_name", ObjCol [Some (f_dept_name f)]);
     ("title", ObjCol [Some (f_title f)]);
     ("sex", ObjCol [Some (f_sex f)]);
     ("Last_performance_rating", ObjCol [Some (f_rating f)])].

Definition count_label (label : string) (c : column) : nat :=
  List.length (filter (fun v => match v with
                           | Some s => String.eqb s label
                           | None => false
                           end) (cells_of c)).

(** [len(df[df[label] == value])] *)
Definition count_rows (df : DataFrame) (label value : string) : nat :=
  match lookup label (columns df) with
  | Some c => count_label value c
  | None => 0
  end.

Definition missing_columns_message : string :=
  "Missing required columns: ['age', 'tenure', 'salary', 'dept_name', 'title', 'sex', 'Last_performance_rating', 'no_of_projects']".

Section Pipeline.

(** The artefacts loaded by [load_resources], all opaque: the scaler's
    [transform], the column list recorded at training time, and the
    classifier's [predict] and [predict_proba] (two class probabilities per
    row, class 0 then class 1). [V] is the type of a scaled cell. *)
Variable V : Type.
Variable scaler_transform : list (list num) -> list (list V).
Variable model_columns : list string.
Variable model_predict : list (list V) -> list Z.
Variable model_predict_proba : list (list V) -> list (Q * Q).

Definition preprocess_input : M (list (list V)) :=
  age <- get_column "age" ;;
  age_group <- lift (pd_cut age age_bins age_labels) ;;
  assign "age_group" age_group ;;;
  tenure <- get_column "tenure" ;;
  tenure_group <- lift (pd_cut tenure tenure_bins tenure_labels) ;;
  assign "tenure_group" tenure_group ;;;
  salary <- get_column "salary" ;;
  salary_bin <- lift (pd_cut salary salary_bins salary_labels) ;;
  assign "salary_bin" salary_bin ;;;
  processed_df <- select features ;;
  let encoded_df := get_dummies processed_df in
  encoded_df <- lift (align model_columns encoded_df) ;;
  X <- lift (to_matrix encoded_df) ;;
  ret (scaler_transform X).

Definition prediction_label (p : Z) : txt :=
  Some (if Z.eqb p 1 then "Leave" else "Stay").

(** The 'Upload CSV' branch of [main_app], from the frame read by
    [pd.read_csv]; the second component is that frame afterwards. *)
Definition upload_csv (df : DataFrame) : display * DataFrame :=
  if forallb (has_column df) required_cols then
    match preprocess_input df with
    | (Raise e, df1) => (Uncaught e, df1)
    | (Ok processed_data, df1) =>
        let predictions := model_predict processed_data in
        let probabilities := map snd (model_predict_proba processed_data) in
        match setitem_values df1 "Prediction"
                (ObjCol (map prediction_label predictions)) with
        | Raise e => (Uncaught e, df1)
        | Ok df2 =>
            match setitem_values df2 "Probability"
                    (NumCol (map Some probabilities)) with
            | Raise e => (Uncaught e, df2)
            | Ok df3 =>
                let total := nrows df3 in
                let stay := count_rows df3 "Prediction" "Stay" in
                let leave := count_rows df3 "Prediction" "Leave" in
                if Nat.eqb total 0 then (Uncaught ZeroDivisionError, df3)
                else (Report df3 total stay leave, df3)
            end
        end
    end
  else
    (StError missing_columns_message, df).

(** The 'Manual Input' branch after 'Predict' is pressed.  The number
    carried by the message is the one the f-string prints with two
    decimals. *)
Definition manual_predict (f : form) : display :=
  match preprocess_input (form_frame f) with
  | (Raise e, _) => Uncaught e
  | (Ok processed_data, _) =>
      match nth_error (model_predict processed_data) 0,
            nth_error (model_predict_proba processed_data) 0 with
      | Some prediction, Some (_, probability) =>
          if Z.eqb prediction 1 then WillLeave probability
          else WillStay (1 - probability)
      | _, _ => Uncaught IndexError
      end
  end.

End Pipeline.

(** ** Vocabulary of the statements *)

(** The column alignment puts under label [c]: the encoded column of that
    label, or zeros. *)
Definition zeros (n : nat) : column := NumCol (repeat (Some 0%Q) n).

Definition col_or_zero (encoded_df : DataFrame) (c : string) : column :=
  match lookup c (columns encoded_df) with
  | Some col => col
  | None => zeros (nrows encoded_df)
  end.

Definition aligned (model_columns : list string) (encoded_df : DataFrame)
  : DataFrame :=
  mkDF (nrows encoded_df)
       (map (fun c => (c, col_or_zero encoded_df c)) model_columns).

(** Row [i] of the aligned frame, read under label [c]. *)
Definition cell (encoded_df : DataFrame) (c : string) (i : nat) : num :=
  match col_or_zero encoded_df c with
  | NumCol v => nth i v None
  | _ => None
  end.

Definition aligned_matrix (model_columns : list string) (encoded_df : DataFrame)
  : list (list num) :=
  map (fun i => map (fun c => cell encoded_df c i) model_columns)
      (seq 0 (nrows encoded_df)).

(** A well-typed batch: the content of the eight required columns. *)
Record batch : Type := mkBatch {
  b_age : list num;
  b_tenure : list num;
  b_salary : list num;
  b_projects : list num;
  b_dept : list txt;
  b_title : list txt;
  b_sex : list txt;
  b_rating : list txt
}.

(** [holds df b]: the frame [df] has the eight required columns with the
    dtypes of the data model (four numeric, four object), holding [b], each
    as long as the index. *)
Definition holds (df : DataFrame) (b : batch) : Prop :=
  (lookup "age" (columns df) = Some (NumCol (b_age b)) /\
   lookup "tenure" (columns df) = Some (NumCol (b_tenure b)) /\
   lookup "salary" (columns df) = Some (NumCol (b_salary b)) /\
   lookup "no_of_projects" (columns df) = Some (NumCol (b_projects b))) /\
  (lookup "dept_name" (columns df) = Some (ObjCol (b_dept b)) /\
   lookup "title" (columns df) = Some (ObjCol (b_title b)) /\
   lookup "sex" (columns df) = Some (ObjCol (b_sex b)) /\
   lookup "Last_performance_rating" (columns df) = Some (ObjCol (b_rating b))) /\
  (length (b_age b) = nrows df /\ length (b_tenure b) = nrows df /\
   length (b_salary b) = nrows df /\ length (b_projects b) = nrows df) /\
  (length (b_dept b) = nrows df /\ length (b_title b) = nrows df /\
   length (b_sex b) = nrows df /\ length (b_rating b) = nrows df).

Definition age_group_col (b : batch) : column :=
  CatCol age_labels (map (cut_value age_bins age_labels) (b_age b)).
Definition tenure_group_col (b : batch) : column :=
  CatCol tenure_labels (map (cut_value tenure_bins tenure_labels) (b_tenure b)).
Definition salary_bin_col (b : batch) : column :=
  CatCol salary_labels (map (cut_value salary_bins salary_labels) (b_salary b)).

(** The caller's frame once the three derived columns are assigned. *)
Definition with_bins (df : DataFrame) (b : batch) : DataFrame :=
  setitem (setitem (setitem df "age_group" (age_group_col b))
                   "tenure_group" (tenure_group_col b))
          "salary_bin" (salary_bin_col b).

(** [input_df[features]] for a well-typed batch. *)
Definition processed_of (n : nat) (b : batch) : DataFrame :=
  mkDF n
    [("no_of_projects", NumCol (b_projects b));
     ("salary_bin", salary_bin_col b);
     ("age_group", age_group_col b);
     ("tenure_group", tenure_group_col b);
     ("dept_name", ObjCol (b_dept b));
     ("title", ObjCol (b_title b));
     ("sex", ObjCol (b_sex b));
     ("Last_performance_rating", ObjCol (b_rating b))].

Definition encoded_of (n : nat) (b : batch) : DataFrame :=
  get_dummies (processed_of n b).

(** Record [i] of a frame as a frame of its own. *)
Definition row_of_col (i : nat) (c : column) : column :=
  match c with
  | NumCol v => NumCol [nth i v None]
  | ObjCol v => ObjCol [nth i v None]
  | CatCol cats v => CatCol cats [nth i v None]
  end.

Definition row_of_cols (i : nat) (cols : list (string * column))
  : list (string * column) :=
  map (fun lc => (fst lc, row_of_col i (snd lc))) cols.

Definition record_alone (i : nat) (df : DataFrame) : DataFrame :=
  mkDF 1 (row_of_cols i (columns df)).

Definition row_of_batch (i : nat) (b : batch) : batch :=
  mkBatch [nth i (b_age b) None] [nth i (b_tenure b) None]
          [nth i (b_salary b) None] [nth i (b_projects b) None]
          [nth i (b_dept b) None] [nth i (b_title b) None]
          [nth i (b_sex b) None] [nth i (b_rating b) None].

(** The encoded labels that do not depend on the batch: the numeric feature
    and the indicators of the three binned features. *)
Definition bin_columns : list string :=
  ["no_of_projects";
   "salary_bin_medium"; "salary_bin_high"; "salary_bin_very_high";
   "age_group_29-36"; "age_group_37-45"; "age_group_46-53"; "age_group_54-61";
   "tenure_group_6-11"; "tenure_group_12-17"; "tenure_group_18-23";
   "tenure_group_24-29"].

Definition is_bin_column (c : string) : bool :=
  existsb (String.eqb c) bin_columns.

(** [X] has [n] rows of [m] cells each. *)
Definition has_shape {A} (n m : nat) (X : list (list A)) : Prop :=
  length X = n /\ Forall (fun row => length row = m) X.

(** The encoded frame of a well-typed batch, in two parts: the numeric
    feature followed by the indicators of the binned features, and the
    indicators of the four object features. *)
Definition bin_part (b : batch) : list (string * column) :=
  [("no_of_projects", NumCol (b_projects b));
   dummy_column "salary_bin" (salary_bin_col b) "medium";
   dummy_column "salary_bin" (salary_bin_col b) "high";
   dummy_column "salary_bin" (salary_bin_col b) "very_high";
   dummy_column "age_group" (age_group_col b) "29-36";
   dummy_column "age_group" (age_group_col b) "37-45";
   dummy_column "age_group" (age_group_col b) "46-53";
   dummy_column "age_group" (age_group_col b) "54-61";
   dummy_column "tenure_group" (tenure_group_col b) "6-11";
   dummy_column "tenure_group" (tenure_group_col b) "12-17";
   dummy_column "tenure_group" (tenure_group_col b) "18-23";
   dummy_column "tenure_group" (tenure_group_col b) "24-29"].

Definition obj_part (b : batch) : list (string * column) :=
  get_dummies_1d "dept_name" (ObjCol (b_dept b))
  ++ get_dummies_1d "title" (ObjCol (b_title b))
  ++ get_dummies_1d "sex" (ObjCol (b_sex b))
  ++ get_dummies_1d "Last_performance_rating" (ObjCol (b_rating b)).

(** What the row of a record run alone keeps of its row in a batch: the
    cells under the batch-independent labels, zero under any other. *)
Definition keep_bin_columns (model_columns : list string) (row : list num)
  : list num :=
  map (fun cv => if is_bin_column (fst cv) then snd cv else Some 0%Q)
      (combine model_columns row).

(** ** Sample artefacts and inputs *)

(** A scaler that leaves the matrix as it is, a short list of model columns,
    a classifier that answers "stay" with class probabilities 3/4 and 1/4. *)
Definition identity_scaler (X : list (list num)) : list (list num) := X.

Definition sample_columns : list string :=
  ["no_of_projects"; "salary_bin_medium"; "salary_bin_high";
   "salary_bin_very_high"; "age_group_29-36"; "dept_name_Sales"; "sex_M"].

Definition stay_predict (X : list (list num)) : list Z := map (fun _ => 0%Z) X.
Definition stay_predict_proba (X : list (list num)) : list (Q * Q) :=
  map (fun _ => (3 # 4, 1 # 4)%Q) X.

Definition batch_of_form (f : form) : batch :=
  mkBatch [Some (inject_Z (f_age f))] [Some (inject_Z (f_tenure f))]
          [Some (inject_Z (f_salary f))] [Some (inject_Z (f_no_of_projects f))]
          [Some (f_dept_name f)] [Some (f_title f)]
          [Some (f_sex f)] [Some (f_rating f)].

(** The form's defaults with the spec's example categories. *)
Definition sample_form : form :=
  mkForm 3 55000 30 5 "Sales" "Analyst" "F" "B".

(** The same with the largest salary the widget accepts. *)
Definition top_salary_form : form :=
  mkForm 3 130000 30 5 "Sales" "Analyst" "F" "B".

Definition two_records_batch : batch :=
  mkBatch [Some 30; Some 40]%Q [Some 5; Some 7]%Q
          [Some 55000; Some 65000]%Q [Some 3; Some 4]%Q
          [Some "Sales"; Some "Dev"] [Some "Analyst"; Some "Analyst"]
          [Some "F"; Some "M"] [Some "B"; Some "A"].

Definition two_records : DataFrame :=
  mkDF 2
    [("age", NumCol (b_age two_records_batch));
     ("tenure", NumCol (b_tenure two_records_batch));
     ("salary", NumCol (b_salary two_records_batch));
     ("no_of_projects", NumCol (b_projects two_records_batch));
     ("dept_name", ObjCol (b_dept two_records_batch));
     ("title", ObjCol (b_title two_records_batch));
     ("sex", ObjCol (b_sex two_records_batch));
     ("Last_performance_rating", ObjCol (b_rating two_records_batch))].

(** An upload without the [age] column. *)
Definition no_age_upload : DataFrame :=
  mkDF 1
    [("tenure", NumCol [Some 5%Q]); ("salary", NumCol [Some 55000%Q]);
     ("no_of_projects", NumCol [Some 3%Q]); ("dept_name", ObjCol [Some "Sales"]);
     ("title", ObjCol [Some "Analyst"]); ("sex", ObjCol [Some "F"]);
     ("Last_performance_rating", ObjCol [Some "B"])].

(** ** Authentication *)

(** [st.session_state] as far as the program uses it: the key [logged_in],
    absent or holding a boolean. *)
Definition session_state : Type := option bool.

(** What the login form holds when the script runs: the two text inputs and
    whether the 'Login' button was just pressed. *)
Record login_widgets : Type := mkLogin {
  w_username : string;
  w_password : string;
  w_submit : bool
}.

(** [check_login] either returns (having shown the form, and possibly an
    error, when it returns [False]) or is cut short by [st.rerun()]. *)
Inductive login_result : Type :=
| Returned (value : bool) (error : option string)
| Rerun.

Definition check_login (s : session_state) (w : login_widgets)
  : login_result * session_state :=
  let s := match s with
           | None => Some false
           | Some v => Some v
           end in
  match s with
  | Some true => (Returned true None, s)
  | _ =>
      if w_submit w then
        if String.eqb (w_username w) "admin"
           && String.eqb (w_password w) "admin@123"
        then (Rerun, Some true)
        else (Returned false (Some "Invalid credentials"), s)
      else (Returned false None, s)
  end.

Definition logout (s : session_state) : session_state := Some false.

(** One execution of the script: [if check_login(): main_app()]. *)
Inductive page : Type :=
| LoginPage (error : option string)
| AppPage
| Rerunning.

Definition script (s : session_state) (w : login_widgets)
  : page * session_state :=
  match check_login s w with
  | (Returned true _, s') => (AppPage, s')
  | (Returned false e, s') => (LoginPage e, s')
  | (Rerun, s') => (Rerunning, s')
  end.

(** What a user does, and what Streamlit makes of it: loading or touching
    the page runs the script; pressing 'Login' runs it with the button
    pressed, and a rerun asked by the script runs it again with the button
    released; pressing 'Logout' runs the callback [logout], then the
    script. *)
Inductive event : Type :=
| Load
| Submit (username password : string)
| ClickLogout.

Definition handle (s : session_state) (e : event) : page * session_state :=
  match e with
  | Load => script s (mkLogin "" "" false)
  | Submit u p =>
      match script s (mkLogin u p true) with
      | (Rerunning, s') => script s' (mkLogin u p false)
      | shown => shown
      end
  | ClickLogout => script (logout s) (mkLogin "" "" false)
  end.

(** A browser session: the first load, then the events in order. *)
Definition replay (events : list event) : page * session_state :=
  fold_left (fun st e => handle (snd st) e) events (handle None Load).

(** ** More vocabulary *)

Definition is_numeric (c : option column) : bool :=
  match c with
  | Some (NumCol _) => true
  | _ => false
  end.

(** A column as [pd.read_csv] types it in a file with at least one record:
    numeric, or of dtype object with at least one cell of text. *)
Definition read_as_numeric_or_text (c : option column) : bool :=
  match c with
  | Some (NumCol _) => true
  | Some (ObjCol vals) => existsb is_text vals
  | _ => false
  end.

Definition binned_sources_as_read (df : DataFrame) : bool :=
  read_as_numeric_or_text (lookup "age" (columns df))
  && read_as_numeric_or_text (lookup "tenure" (columns df))
  && read_as_numeric_or_text (lookup "salary" (columns df)).

(** The three columns handed to [pd.cut] are numeric. *)
Definition binned_sources_numeric (df : DataFrame) : bool :=
  is_numeric (lookup "age" (columns df))
  && is_numeric (lookup "tenure" (columns df))
  && is_numeric (lookup "salary" (columns df)).

(** Two forms with the same number of projects, age and tenure. *)
Definition same_projects_age_tenure (f g : form) : Prop :=
  f_no_of_projects f = f_no_of_projects g /\
  f_age f = f_age g /\
  f_tenure f = f_tenure g.

(** An upload whose [age] column holds text. *)
Definition text_age_upload : DataFrame :=
  setitem two_records "age" (ObjCol [Some "thirty"; Some "forty"]).

(** The sample form with other choices in the four select boxes. *)
Definition other_choices_form : form :=
  mkForm 3 55000 30 5 "Development" "Manager" "M" "A".


(** Two records on the edges of the bins: the first edge of each feature,
    and the last whole number below its last edge. *)
Definition edge_records_batch : batch :=
  mkBatch [Some 21; Some 61]%Q [Some 0; Some 29]%Q
          [Some 40000; Some 129999]%Q [Some 3; Some 4]%Q
          [Some "Sales"; Some "Dev"] [Some "Analyst"; Some "Analyst"]
          [Some "F"; Some "M"] [Some "B"; Some "A"].

Definition edge_records : DataFrame :=
  mkDF 2
    [("age", NumCol (b_age edge_records_batch));
     ("tenure", NumCol (b_tenure edge_records_batch));
     ("salary", NumCol (b_salary edge_records_batch));
     ("no_of_projects", NumCol (b_projects edge_records_batch));
     ("dept_name", ObjCol (b_dept edge_records_batch));
     ("title", ObjCol (b_title edge_records_batch));
     ("sex", ObjCol (b_sex edge_records_batch));
     ("Last_performance_rating", ObjCol (b_rating edge_records_batch))].

(** * Properties *)

(** ** Binning *)

Lemma Qle_bool_false (a b : Q) : Qle_bool a b = false <-> (b < a)%Q.
Proof.
  split.
  - intros H. apply Qnot_le_lt. intros Hle.
    apply Qle_bool_iff in Hle. congruence.
  - intros H. destruct (Qle_bool a b) eqn:E; [|reflexivity].
    apply Qle_bool_iff in E. exfalso. apply (Qlt_not_le _ _ H E).
Qed.

Ltac edge b x :=
  let E := fresh "E" in
  destruct (Qle_bool b x) eqn:E;
  [ apply Qle_bool_iff in E | apply Qle_bool_false in E ].

Ltac cut_cases x :=
  repeat match goal with
         | |- context [Qle_bool ?b x] => edge b x; try (exfalso; lra); cbn
         end;
  try reflexivity.


(** One cell, with the edges and labels of the program: a value lying
    between two consecutive edges, the lower one included, takes the label
    of that interval. *)
Lemma cut_value_half_open (x : Q) :
  ((21 <= x < 29)%Q -> age_group_of x = Some "21-28") /\
  ((29 <= x < 37)%Q -> age_group_of x = Some "29-36") /\
  ((37 <= x < 46)%Q -> age_group_of x = Some "37-45") /\
  ((46 <= x < 54)%Q -> age_group_of x = Some "46-53") /\
  ((54 <= x < 62)%Q -> age_group_of x = Some "54-61") /\
  ((0 <= x < 6)%Q -> tenure_group_of x = Some "0-5") /\
  ((6 <= x < 12)%Q -> tenure_group_of x = Some "6-11") /\
  ((12 <= x < 18)%Q -> tenure_group_of x = Some "12-17") /\
  ((18 <= x < 24)%Q -> tenure_group_of x = Some "18-23") /\
  ((24 <= x < 30)%Q -> tenure_group_of x = Some "24-29") /\
  ((40000 <= x < 60000)%Q -> salary_bin_of x = Some "low") /\
  ((60000 <= x < 80000)%Q -> salary_bin_of x = Some "medium") /\
  ((80000 <= x < 100000)%Q -> salary_bin_of x = Some "high") /\
  ((100000 <= x < 130000)%Q -> salary_bin_of x = Some "very_high").
Proof.
  unfold age_group_of, tenure_group_of, salary_bin_of, cut_value,
    age_bins, tenure_bins, salary_bins.
  repeat split; intros [Hlo Hhi]; cbn [searchsorted_right]; cut_cases x.
Qed.




(** ** Frames *)

Lemma rmap_ok {A B} (f : A -> result B) (g : A -> B) (l : list A) :
  (forall x, In x l -> f x = Ok (g x)) -> rmap f l = Ok (map g l).
Proof.
  induction l as [|x xs IH]; intros H; cbn.
  - reflexivity.
  - rewrite (H x (or_introl eq_refl)). cbn.
    rewrite IH by (intros y Hy; apply H; now right).
    reflexivity.
Qed.

Lemma lookup_set_col_same (l : string) (c : column) cols :
  lookup l (set_col l c cols) = Some c.
Proof.
  induction cols as [|[l0 c0] rest IH]; cbn.
  - now rewrite String.eqb_refl.
  - destruct (String.eqb l l0) eqn:E; cbn; rewrite E; [reflexivity | exact IH].
Qed.

Lemma lookup_set_col_other (l l' : string) (c : column) cols :
  String.eqb l l' = false ->
  lookup l (set_col l' c cols) = lookup l cols.
Proof.
  intros Hne. induction cols as [|[l0 c0] rest IH]; cbn.
  - now rewrite Hne.
  - destruct (String.eqb l' l0) eqn:E; cbn.
    + apply String.eqb_eq in E. subst l0. now rewrite Hne.
    + now rewrite IH.
Qed.

Lemma labels_set_col_present (l : string) (c : column) cols :
  In l (labels_of cols) -> labels_of (set_col l c cols) = labels_of cols.
Proof.
  induction cols as [|[l0 c0] rest IH]; cbn; intros H.
  - contradiction.
  - destruct (String.eqb l l0) eqn:E; cbn.
    + reflexivity.
    + f_equal. apply IH. destruct H as [H | H]; [|exact H].
      subst l0. now rewrite String.eqb_refl in E.
Qed.

Lemma set_col_absent (l : string) (c : column) cols :
  lookup l cols = None -> set_col l c cols = cols ++ [(l, c)].
Proof.
  induction cols as [|[l0 c0] rest IH]; cbn; intros H.
  - reflexivity.
  - destruct (String.eqb l l0); [discriminate|]. now rewrite IH.
Qed.

Lemma lookup_app (l : string) (xs ys : list (string * column)) :
  lookup l (xs ++ ys) =
  match lookup l xs with Some c => Some c | None => lookup l ys end.
Proof.
  induction xs as [|[l0 c0] rest IH]; cbn; [reflexivity|].
  destruct (String.eqb l l0); [reflexivity | exact IH].
Qed.

Lemma lookup_none_iff (l : string) cols :
  lookup l cols = None <-> ~ In l (labels_of cols).
Proof.
  induction cols as [|[l0 c0] rest IH]; cbn.
  - tauto.
  - destruct (String.eqb l l0) eqn:E.
    + apply String.eqb_eq in E. subst. split; [discriminate | tauto].
    + apply String.eqb_neq in E. rewrite IH. split.
      * intros H [H1 | H1]; [congruence | tauto].
      * tauto.
Qed.

(** ** Alignment *)

Lemma add_columns_nrows (ms : list string) (e : DataFrame) :
  nrows (add_columns ms e) = nrows e.
Proof.
  revert e. induction ms as [|m ms IH]; intros e; cbn; [reflexivity|].
  unfold add_columns in IH. now rewrite IH.
Qed.

(** After the loop, a label of the loop holds zeros and any other label holds
    what it held: the order in which the labels are visited does not show. *)
Lemma add_columns_lookup (ms : list string) (e : DataFrame) (c : string) :
  lookup c (columns (add_columns ms e)) =
  if existsb (String.eqb c) ms then Some (zeros (nrows e))
  else lookup c (columns e).
Proof.
  revert e. induction ms as [|m ms IH]; intros e; cbn; [reflexivity|].
  unfold add_columns in IH. rewrite IH. cbn.
  destruct (existsb (String.eqb c) ms) eqn:Ems.
  - now rewrite orb_true_r.
  - rewrite orb_false_r. destruct (String.eqb c m) eqn:E.
    + apply String.eqb_eq in E. subst m. apply lookup_set_col_same.
    + now apply lookup_set_col_other.
Qed.

Lemma missing_cols_mem (mc : list string) (e : DataFrame) (c : string) :
  In c mc ->
  existsb (String.eqb c) (missing_cols mc e) =
  match lookup c (columns e) with Some _ => false | None => true end.
Proof.
  intros Hin. unfold missing_cols.
  destruct (lookup c (columns e)) as [col|] eqn:L.
  - apply not_true_is_false. intros H. apply existsb_exists in H.
    destruct H as [x [Hx Hc]]. apply String.eqb_eq in Hc. subst x.
    apply nodup_In, filter_In in Hx. destruct Hx as [_ Hx].
    unfold has_column in Hx. rewrite L in Hx. discriminate.
  - apply existsb_exists. exists c. split; [|apply String.eqb_refl].
    apply nodup_In, filter_In. split; [exact Hin|].
    unfold has_column. now rewrite L.
Qed.

Lemma align_aligned (mc : list string) (e : DataFrame) :
  align mc e = Ok (aligned mc e).
Proof.
  unfold align, getitems, aligned.
  rewrite (rmap_ok _ (fun c => (c, col_or_zero e c))).
  - cbn. now rewrite add_columns_nrows.
  - intros c Hc. unfold getitem, col_or_zero.
    rewrite add_columns_lookup, (missing_cols_mem _ _ _ Hc).
    destruct (lookup c (columns e)); reflexivity.
Qed.

Lemma lookup_aligned (mc : list string) (e : DataFrame) (c : string) :
  lookup c (columns (aligned mc e)) =
  if existsb (String.eqb c) mc then Some (col_or_zero e c) else None.
Proof.
  unfold aligned; cbn. induction mc as [|m mc IH]; cbn; [reflexivity|].
  destruct (String.eqb c m) eqn:E; cbn.
  - apply String.eqb_eq in E. now subst m.
  - exact IH.
Qed.

(** C3. Alignment reindexes any encoded frame to the model columns in their
    recorded order: the result's labels are exactly that list; under each
    label stands the encoded column of that label, or an all-zero column when
    the encoded frame has none; an encoded column whose label is not a model
    column is not in the result. *)
Theorem align_reindexes (model_columns : list string) (encoded_df : DataFrame) :
  exists a,
    align model_columns encoded_df = Ok a /\
    nrows a = nrows encoded_df /\
    labels_of (columns a) = model_columns /\
    map snd (columns a) = map (col_or_zero encoded_df) model_columns /\
    (forall c, In c model_columns ->
       lookup c (columns encoded_df) = None ->
       lookup c (columns a) = Some (NumCol (repeat (Some 0%Q) (nrows encoded_df)))) /\
    (forall c col, In c model_columns ->
       lookup c (columns encoded_df) = Some col ->
       lookup c (columns a) = Some col) /\
    (forall c, ~ In c model_columns -> lookup c (columns a) = None).
Proof.
  exists (aligned model_columns encoded_df).
  split; [apply align_aligned|].
  split; [reflexivity|].
  split; [unfold aligned, labels_of; cbn; rewrite map_map; cbn; apply map_id|].
  split; [unfold aligned; cbn; now rewrite map_map|].
  assert (Hmem : forall c, In c model_columns ->
                           existsb (String.eqb c) model_columns = true).
  { intros c Hc. apply existsb_exists. exists c. split; [exact Hc|].
    apply String.eqb_refl. }
  split; [|split].
  - intros c Hc Hnone. rewrite lookup_aligned, (Hmem c Hc).
    unfold col_or_zero. now rewrite Hnone.
  - intros c col Hc Hsome. rewrite lookup_aligned, (Hmem c Hc).
    unfold col_or_zero. now rewrite Hsome.
  - intros c Hc. rewrite lookup_aligned.
    destruct (existsb (String.eqb c) model_columns) eqn:E; [|reflexivity].
    apply existsb_exists in E. destruct E as [x [Hx Hcx]].
    apply String.eqb_eq in Hcx. subst x. contradiction.
Qed.

Lemma lookup_head_nodup (l : string) (c : column) rest :
  ~ In l (labels_of rest) ->
  forall l', In l' (labels_of rest) ->
             lookup l' ((l, c) :: rest) = lookup l' rest.
Proof.
  intros Hnot l' Hin. cbn. destruct (String.eqb l' l) eqn:E; [|reflexivity].
  apply String.eqb_eq in E. subst. contradiction.
Qed.

Lemma aligned_own_labels (n : nat) cols :
  NoDup (labels_of cols) ->
  map (fun c => (c, col_or_zero (mkDF n cols) c)) (labels_of cols) = cols.
Proof.
  induction cols as [|[l c] rest IH]; cbn; intros Hnd; [reflexivity|].
  inversion Hnd as [|? ? Hnot Hnd']; subst.
  unfold col_or_zero at 1. cbn. rewrite String.eqb_refl. f_equal.
  rewrite <- (IH Hnd') at 2.
  apply map_ext_in. intros l' Hin. f_equal.
  unfold col_or_zero. cbn [columns nrows].
  now rewrite (lookup_head_nodup l c rest Hnot l' Hin).
Qed.

(** C6. Alignment is idempotent: a frame whose labels already are the model
    columns, in that order, comes back unchanged. *)
Theorem align_idempotent (model_columns : list string) (df : DataFrame) :
  NoDup model_columns ->
  labels_of (columns df) = model_columns ->
  align model_columns df = Ok df.
Proof.
  intros Hnd Hlab. rewrite align_aligned. unfold aligned. f_equal.
  destruct df as [n cols]; cbn in *. subst model_columns.
  now rewrite aligned_own_labels.
Qed.

Lemma align_idempotent_witness :
  align ["no_of_projects"; "sex_M"]
        (mkDF 1 [("no_of_projects", NumCol [Some 3%Q]); ("sex_M", NumCol [Some 0%Q])])
  = Ok (mkDF 1 [("no_of_projects", NumCol [Some 3%Q]); ("sex_M", NumCol [Some 0%Q])]).
Proof.
  apply align_idempotent.
  - repeat constructor; cbn; intuition discriminate.
  - reflexivity.
Defined.

(** ** The pipeline on a well-typed batch *)

Lemma pd_cut_age (v : list num) :
  pd_cut (NumCol v) age_bins age_labels
  = Ok (CatCol age_labels (map (cut_value age_bins age_labels) v)).
Proof. reflexivity. Qed.

Lemma pd_cut_tenure (v : list num) :
  pd_cut (NumCol v) tenure_bins tenure_labels
  = Ok (CatCol tenure_labels (map (cut_value tenure_bins tenure_labels) v)).
Proof. reflexivity. Qed.

Lemma pd_cut_salary (v : list num) :
  pd_cut (NumCol v) salary_bins salary_labels
  = Ok (CatCol salary_labels (map (cut_value salary_bins salary_labels) v)).
Proof. reflexivity. Qed.

Ltac lookups :=
  repeat (rewrite lookup_set_col_same
          || rewrite lookup_set_col_other by reflexivity).

Lemma select_features (df : DataFrame) (b : batch) :
  holds df b ->
  getitems (with_bins df b) features = Ok (processed_of (nrows df) b).
Proof.
  intros [[Ha [Ht [Hs Hp]]] [[Hd [Hti [Hsx Hr]]] _]].
  unfold getitems, features, with_bins, getitem, setitem. cbn [rmap columns nrows].
  lookups. rewrite Hp, Hd, Hti, Hsx, Hr. reflexivity.
Qed.

Lemma numeric_get_dummies_1d (prefix : string) (c : column) :
  Forall (fun lc => is_encoded (snd lc) = false) (get_dummies_1d prefix c).
Proof.
  unfold get_dummies_1d. destruct (levels_of c) as [|l0 [|l1 rest]]; auto.
  apply Forall_forall. intros lc Hin. apply in_map_iff in Hin.
  destruct Hin as [lv [<- _]]. reflexivity.
Qed.

(** The encoded frame holds numeric columns only. *)
Lemma numeric_get_dummies (df : DataFrame) :
  Forall (fun lc => is_encoded (snd lc) = false) (columns (get_dummies df)).
Proof.
  unfold get_dummies; cbn. apply Forall_app. split.
  - apply Forall_forall. intros lc Hin. apply filter_In in Hin.
    destruct Hin as [_ H]. now apply negb_true_iff in H.
  - apply Forall_forall. intros lc Hin. apply in_flat_map in Hin.
    destruct Hin as [x [_ Hin]].
    exact (proj1 (Forall_forall _ _) (numeric_get_dummies_1d _ _) lc Hin).
Qed.

Lemma numeric_col_or_zero (e : DataFrame) (c : string) :
  Forall (fun lc => is_encoded (snd lc) = false) (columns e) ->
  exists v, col_or_zero e c = NumCol v.
Proof.
  intros Hnum. unfold col_or_zero.
  destruct (lookup c (columns e)) as [col|] eqn:L.
  - assert (Hin : exists l, In (l, col) (columns e)).
    { clear Hnum. induction (columns e) as [|[l0 c0] rest IH]; [discriminate|].
      cbn in L. destruct (String.eqb c l0).
      - injection L as <-. exists l0. now left.
      - destruct (IH L) as [l Hl]. exists l. now right. }
    destruct Hin as [l Hin].
    pose proof (proj1 (Forall_forall _ _) Hnum _ Hin) as H. cbn in H.
    destruct col; try discriminate. eauto.
  - unfold zeros. eauto.
Qed.

Lemma to_matrix_aligned (mc : list string) (e : DataFrame) :
  Forall (fun lc => is_encoded (snd lc) = false) (columns e) ->
  to_matrix (aligned mc e) = Ok (aligned_matrix mc e).
Proof.
  intros Hnum. unfold to_matrix, aligned, aligned_matrix. cbn [columns nrows].
  rewrite (rmap_ok _ (fun lc => match snd lc with NumCol v => v | _ => [] end)).
  - cbn. f_equal. apply map_ext. intros i. rewrite !map_map. cbn.
    apply map_ext. intros c. unfold cell.
    destruct (numeric_col_or_zero e c Hnum) as [v ->]. reflexivity.
  - intros [l col] Hin. apply in_map_iff in Hin. destruct Hin as [c [Hc _]].
    injection Hc as <- <-. cbn.
    destruct (numeric_col_or_zero e c Hnum) as [v ->]. reflexivity.
Qed.

Section PipelineFacts.

Variable V : Type.
Variable scaler_transform : list (list num) -> list (list V).
Variable model_columns : list string.

(** On a well-typed batch the pipeline returns, whatever the values: the
    scaled aligned matrix of the encoded frame, the caller's frame now
    carrying the three derived columns. *)
Lemma preprocess_input_typed (df : DataFrame) (b : batch) :
  holds df b ->
  preprocess_input V scaler_transform model_columns df
  = (Ok (scaler_transform
           (aligned_matrix model_columns (encoded_of (nrows df) b))),
     with_bins df b).
Proof.
  intros H. pose proof (select_features df b H) as Hsel.
  destruct H as [[Ha [Ht [Hs Hp]]] _].
  unfold preprocess_input, bind, get_column, lift, assign, select, ret, getitem.
  rewrite Ha, pd_cut_age.
  cbn [setitem columns nrows]. lookups. rewrite Ht, pd_cut_tenure.
  cbn [setitem columns nrows]. lookups. rewrite Hs, pd_cut_salary.
  unfold with_bins, age_group_col, tenure_group_col, salary_bin_col in *.
  rewrite Hsel.
  rewrite align_aligned, to_matrix_aligned by apply numeric_get_dummies.
  reflexivity.
Qed.

End PipelineFacts.

(** ** Shape of the encoded frame *)

Lemma encoded_columns (n : nat) (b : batch) :
  columns (encoded_of n b) = bin_part b ++ obj_part b.
Proof.
  unfold encoded_of, get_dummies, processed_of, obj_part. cbn.
  now rewrite app_nil_r.
Qed.

Lemma encoded_nrows (n : nat) (b : batch) : nrows (encoded_of n b) = n.
Proof. reflexivity. Qed.

Lemma lookup_dummies_other (c prefix : string) (col : column) :
  (forall lv, String.eqb c (prefix ++ "_" ++ lv) = false) ->
  lookup c (get_dummies_1d prefix col) = None.
Proof.
  intros H. unfold get_dummies_1d.
  destruct (levels_of col) as [|l0 [|l1 rest]]; try reflexivity.
  induction (l1 :: rest) as [|lv lvs IH]; cbn [map lookup]; [reflexivity|].
  unfold dummy_column at 1. now rewrite H.
Qed.

Lemma nth_map_lt {A B} (f : A -> B) (l : list A) (i : nat) (d : A) (d' : B) :
  (i < length l)%nat -> nth i (map f l) d' = f (nth i l d).
Proof.
  intros Hi. rewrite (nth_indep _ d' (f d)) by now rewrite length_map.
  apply map_nth.
Qed.

Lemma aligned_matrix_row (mc : list string) (e : DataFrame) (i : nat) :
  (i < nrows e)%nat ->
  nth_error (aligned_matrix mc e) i = Some (map (fun c => cell e c i) mc).
Proof.
  intros Hi. unfold aligned_matrix.
  rewrite nth_error_map, nth_error_seq.
  apply Nat.ltb_lt in Hi. now rewrite Hi.
Qed.

Lemma aligned_matrix_shape (mc : list string) (e : DataFrame) :
  has_shape (nrows e) (length mc) (aligned_matrix mc e).
Proof.
  unfold has_shape, aligned_matrix. split.
  - now rewrite length_map, length_seq.
  - apply Forall_forall. intros row Hin. apply in_map_iff in Hin.
    destruct Hin as [i [<- _]]. apply length_map.
Qed.

Lemma obj_part_lookup_none (c : string) (b : batch) :
  (forall lv, String.eqb c ("dept_name" ++ "_" ++ lv) = false) ->
  (forall lv, String.eqb c ("title" ++ "_" ++ lv) = false) ->
  (forall lv, String.eqb c ("sex" ++ "_" ++ lv) = false) ->
  (forall lv, String.eqb c ("Last_performance_rating" ++ "_" ++ lv) = false) ->
  lookup c (obj_part b) = None.
Proof.
  intros H1 H2 H3 H4. unfold obj_part.
  rewrite !lookup_app, !lookup_dummies_other by assumption. reflexivity.
Qed.

(** ** A NaN bucket is encoded as zeros *)






Lemma cut_cell (bins : list Q) (labels : list string) (vals : list num)
      (i : nat) (x : Q) :
  nth_error vals i = Some (Some x) ->
  nth_error (map (cut_value bins labels) vals) i
  = Some (cut_value bins labels (Some x)).
Proof. intros H. now rewrite nth_error_map, H. Qed.


Lemma holds_form_frame (f : form) : holds (form_frame f) (batch_of_form f).
Proof. repeat split. Qed.

Lemma holds_two_records : holds two_records two_records_batch.
Proof. repeat split. Qed.

Section PipelineTheorems.

Variable V : Type.
Variable scaler_transform : list (list num) -> list (list V).
Variable model_columns : list string.


(** C4. On every well-typed batch of at least one record the pipeline
    returns a matrix with one row per record, each as wide as the list of
    model columns, the scaler keeping the shape of what it is given. *)
Theorem output_width (df : DataFrame) (b : batch) :
  (forall n m X, has_shape n m X -> has_shape n m (scaler_transform X)) ->
  holds df b ->
  (1 <= nrows df)%nat ->
  exists out df',
    preprocess_input V scaler_transform model_columns df
    = (Ok out, df') /\
    has_shape (nrows df) (length model_columns) out /\
    out <> [].
Proof.
  intros Hshape H Hn.
  exists (scaler_transform
            (aligned_matrix model_columns (encoded_of (nrows df) b))),
         (with_bins df b).
  split; [now apply preprocess_input_typed|].
  pose proof (Hshape _ _ _ (aligned_matrix_shape model_columns
                              (encoded_of (nrows df) b))) as Hs.
  rewrite encoded_nrows in Hs. split; [exact Hs|].
  destruct Hs as [Hlen _]. intros Heq. rewrite Heq in Hlen. cbn in Hlen. lia.
Qed.

(** C10, as the code has it. The pipeline writes into the caller's frame:
    after the call it holds the three derived columns age_group,
    tenure_group and salary_bin; its index and every column under another
    label are as before, and when none of the three labels was in use the
    new columns stand, in that order, after the old ones. *)
Theorem preprocess_input_adds_bins (df : DataFrame) (b : batch) :
  holds df b ->
  let df' := snd (preprocess_input V scaler_transform model_columns df) in
  nrows df' = nrows df /\
  lookup "age_group" (columns df') = Some (age_group_col b) /\
  lookup "tenure_group" (columns df') = Some (tenure_group_col b) /\
  lookup "salary_bin" (columns df') = Some (salary_bin_col b) /\
  (forall l, l <> "age_group" -> l <> "tenure_group" -> l <> "salary_bin" ->
             lookup l (columns df') = lookup l (columns df)) /\
  (lookup "age_group" (columns df) = None ->
   lookup "tenure_group" (columns df) = None ->
   lookup "salary_bin" (columns df) = None ->
   columns df' = columns df ++ [("age_group", age_group_col b);
                                ("tenure_group", tenure_group_col b);
                                ("salary_bin", salary_bin_col b)]).
Proof.
  intros H. rewrite (preprocess_input_typed _ _ _ _ _ H).
  cbn [snd]. unfold with_bins, setitem. cbn [columns nrows].
  split; [reflexivity|]. split; [now lookups|]. split; [now lookups|].
  split; [now lookups|]. split.
  - intros l H1 H2 H3. apply String.eqb_neq in H1, H2, H3.
    now rewrite !lookup_set_col_other by assumption.
  - intros H1 H2 H3.
    rewrite (set_col_absent "age_group") by exact H1.
    rewrite (set_col_absent "tenure_group")
      by (rewrite lookup_app, H2; reflexivity).
    rewrite (set_col_absent "salary_bin")
      by (rewrite !lookup_app, H3; reflexivity).
    now rewrite <- !app_assoc.
Qed.

End PipelineTheorems.



Lemma output_width_witness :
  exists out df',
    preprocess_input num identity_scaler sample_columns two_records
    = (Ok out, df') /\
    has_shape 2 7 out /\ out <> [].
Proof.
  apply (output_width num identity_scaler sample_columns
                      two_records two_records_batch).
  - intros n m X HX. exact HX.
  - exact holds_two_records.
  - cbn. lia.
Defined.

(** The caller's frame has no column age_group before the call and has one
    after it. *)
Lemma input_frame_is_modified :
  has_column (form_frame sample_form) "age_group" = false /\
  has_column (snd (preprocess_input num identity_scaler sample_columns
                     (form_frame sample_form))) "age_group" = true /\
  snd (preprocess_input num identity_scaler sample_columns
         (form_frame sample_form)) <> form_frame sample_form.
Proof.
  split; [reflexivity|]. split; [reflexivity|].
  intros Heq. apply (f_equal (fun d => has_column d "age_group")) in Heq.
  discriminate Heq.
Qed.

Lemma preprocess_input_adds_bins_witness :
  columns (snd (preprocess_input num identity_scaler sample_columns
                  (form_frame sample_form)))
  = columns (form_frame sample_form)
    ++ [("age_group", age_group_col (batch_of_form sample_form));
        ("tenure_group", tenure_group_col (batch_of_form sample_form));
        ("salary_bin", salary_bin_col (batch_of_form sample_form))].
Proof.
  apply (preprocess_input_adds_bins num identity_scaler sample_columns
           (form_frame sample_form) (batch_of_form sample_form)
           (holds_form_frame sample_form)); reflexivity.
Defined.

(** ** One-hot encoding *)





Lemma get_dummies_1d_labels (prefix : string) (c : column) :
  labels_of (get_dummies_1d prefix c)
  = map (fun lv => (prefix ++ "_" ++ lv)%string) (tl (levels_of c)).
Proof.
  unfold get_dummies_1d, labels_of.
  destruct (levels_of c) as [|l0 [|l1 rest]]; try reflexivity.
  now rewrite map_map.
Qed.




(** ** The two prediction paths *)

Section Prediction.

Variable V : Type.
Variable scaler_transform : list (list num) -> list (list V).
Variable model_columns : list string.
Variable model_predict : list (list V) -> list Z.
Variable model_predict_proba : list (list V) -> list (Q * Q).

(** C8. An upload lacking one of the eight required columns is answered
    with the missing-columns error and nothing else: the frame read from
    the file is left as it was, no preprocessing step has run and no
    prediction is shown. *)
Theorem missing_column_rejected (df : DataFrame) :
  (exists c, In c required_cols /\ has_column df c = false) ->
  upload_csv V scaler_transform model_columns
             model_predict model_predict_proba df
  = (StError missing_columns_message, df).
Proof.
  intros [c [Hin Habs]]. unfold upload_csv.
  destruct (forallb (has_column df) required_cols) eqn:E; [|reflexivity].
  rewrite forallb_forall in E. rewrite (E c Hin) in Habs. discriminate.
Qed.

Lemma preprocess_input_nrows (df : DataFrame) :
  nrows (snd (preprocess_input V scaler_transform model_columns df))
  = nrows df.
Proof.
  unfold preprocess_input, bind, get_column, lift, assign, select, ret.
  repeat match goal with
         | |- context [match ?r with Ok _ => _ | Raise _ => _ end] =>
             destruct r
         end; reflexivity.
Qed.

(** C9, as the code has it. In batch mode each record is labelled "Leave"
    exactly when the classifier predicts 1 and "Stay" otherwise, next to
    the classifier's probability of class 1. The manual form announces
    "will leave" with the probability of class 1 when the classifier
    predicts 1, and otherwise "will stay" with one minus that
    probability. Every number shown lies between 0 and 1 when the
    classifier's probabilities do. *)
Theorem prediction_output :
  (forall X p0 p1, In (p0, p1) (model_predict_proba X) -> (0 <= p1 <= 1)%Q) ->
  (forall df X df1,
      forallb (has_column df) required_cols = true ->
      preprocess_input V scaler_transform model_columns df = (Ok X, df1) ->
      length (model_predict X) = nrows df ->
      length (model_predict_proba X) = nrows df ->
      (1 <= nrows df)%nat ->
      exists shown stay leave,
        upload_csv V scaler_transform model_columns
                   model_predict model_predict_proba df
        = (Report shown (nrows df) stay leave, shown) /\
        lookup "Prediction" (columns shown)
        = Some (ObjCol (map (fun p => Some (if Z.eqb p 1 then "Leave" else "Stay"))
                            (model_predict X))) /\
        lookup "Probability" (columns shown)
        = Some (NumCol (map Some (map snd (model_predict_proba X)))) /\
        Forall (fun p1 => (0 <= p1 <= 1)%Q)
               (map snd (model_predict_proba X))) /\
  (forall f X df1 prediction p0 p1,
      preprocess_input V scaler_transform model_columns (form_frame f)
      = (Ok X, df1) ->
      nth_error (model_predict X) 0 = Some prediction ->
      nth_error (model_predict_proba X) 0 = Some (p0, p1) ->
      manual_predict V scaler_transform model_columns
                     model_predict model_predict_proba f
      = (if Z.eqb prediction 1 then WillLeave p1 else WillStay (1 - p1)) /\
      (0 <= p1 <= 1)%Q /\ (0 <= 1 - p1 <= 1)%Q).
Proof.
  intros Hproba. split.
  - intros df X df1 Hreq Hpre Hlen1 Hlen2 Hn.
    pose proof (preprocess_input_nrows df) as Hrows.
    rewrite Hpre in Hrows. cbn [snd] in Hrows.
    unfold upload_csv. rewrite Hreq, Hpre.
    unfold setitem_values, setitem. cbn [col_len nrows columns].
    assert (E : Nat.eqb (nrows df) 0 = false) by (apply Nat.eqb_neq; lia).
    rewrite !length_map, Hlen1, Hlen2, Hrows, Nat.eqb_refl.
    cbn [nrows col_len]. rewrite ?length_map, ?Hlen2, ?Nat.eqb_refl.
    cbn [nrows]. rewrite E.
    eexists _, _, _. split; [reflexivity|].
    cbn [columns]. split; [now lookups|]. split; [now lookups|].
    apply Forall_forall. intros p1 Hin. apply in_map_iff in Hin.
    destruct Hin as [[q0 q1] [<- Hin]]. exact (Hproba _ _ _ Hin).
  - intros f X df1 prediction p0 p1 Hpre Hp Hq.
    unfold manual_predict. rewrite Hpre, Hp, Hq.
    pose proof (Hproba _ _ _ (nth_error_In _ _ Hq)) as Hb.
    split; [reflexivity|]. split; [exact Hb|]. lra.
Qed.

End Prediction.

Lemma missing_column_rejected_witness :
  upload_csv num identity_scaler sample_columns stay_predict stay_predict_proba
             no_age_upload
  = (StError missing_columns_message, no_age_upload).
Proof.
  apply missing_column_rejected.
  exists "age". split; [now left | reflexivity].
Defined.

Lemma stay_proba_bounds (X : list (list num)) (p0 p1 : Q) :
  In (p0, p1) (stay_predict_proba X) -> (0 <= p1 <= 1)%Q.
Proof.
  unfold stay_predict_proba. intros Hin. apply in_map_iff in Hin.
  destruct Hin as [row [Heq _]]. injection Heq as _ <-.
  split; vm_compute; discriminate.
Qed.

Lemma prediction_output_witness :
  manual_predict num identity_scaler sample_columns
                 stay_predict stay_predict_proba sample_form
  = WillStay (1 - (1 # 4)) /\
  (0 <= 1 # 4 <= 1)%Q /\ (0 <= 1 - (1 # 4) <= 1)%Q.
Proof.
  apply (proj2 (prediction_output num identity_scaler sample_columns
                  stay_predict stay_predict_proba stay_proba_bounds)
               sample_form
               [[Some 3; Some 0; Some 0; Some 0; Some 1; Some 0; Some 0]]%Q
               (with_bins (form_frame sample_form) (batch_of_form sample_form))
               0%Z (3 # 4)%Q (1 # 4)%Q); reflexivity.
Defined.

(** When the classifier predicts 0 with class-1 probability 1/4, the form
    shows 3/4. *)
Lemma stay_message_shows_stay_probability :
  map snd (stay_predict_proba
             [[Some 3; Some 0; Some 0; Some 0; Some 1; Some 0; Some 0]]%Q)
  = [(1 # 4)%Q] /\
  manual_predict num identity_scaler sample_columns
                 stay_predict stay_predict_proba sample_form
  = WillStay (3 # 4) /\
  ~ (3 # 4 == 1 # 4)%Q.
Proof.
  split; [reflexivity|]. split; [reflexivity|].
  intros H. vm_compute in H. discriminate.
Qed.

(** ** A record alone and in a batch *)

Lemma obj_part_alone (i : nat) (b : batch) : obj_part (row_of_batch i b) = [].
Proof.
  unfold obj_part, row_of_batch. cbn [b_dept b_title b_sex b_rating].
  destruct (nth i (b_dept b) None), (nth i (b_title b) None),
    (nth i (b_sex b) None), (nth i (b_rating b) None); reflexivity.
Qed.

Lemma lookup_row_of_cols (i : nat) (c : string) cols :
  lookup c (row_of_cols i cols) = option_map (row_of_col i) (lookup c cols).
Proof.
  induction cols as [|[l0 c0] rest IH]; cbn; [reflexivity|].
  destruct (String.eqb c l0); [reflexivity | exact IH].
Qed.

Lemma lookup_member (c : string) cols :
  existsb (String.eqb c) (labels_of cols)
  = match lookup c cols with Some _ => true | None => false end.
Proof.
  induction cols as [|[l0 c0] rest IH]; cbn; [reflexivity|].
  destruct (String.eqb c l0); [reflexivity | exact IH].
Qed.

Lemma dummy_cell (lv : string) (bins : list Q) (labels : list string)
      (vals : list num) (i : nat) :
  (i < length vals)%nat ->
  nth i (map (indicator lv) (map (cut_value bins labels) vals)) None
  = indicator lv (cut_value bins labels (nth i vals None)).
Proof.
  intros Hi.
  rewrite (@nth_map_lt txt num _ _ _ None) by now rewrite length_map.
  now rewrite (@nth_map_lt num txt _ _ _ None).
Qed.

Lemma bin_part_alone (b : batch) (i : nat) :
  (i < length (b_salary b))%nat -> (i < length (b_age b))%nat ->
  (i < length (b_tenure b))%nat ->
  bin_part (row_of_batch i b) = row_of_cols i (bin_part b).
Proof.
  intros Hs Ha Ht. unfold bin_part, row_of_cols, dummy_column, row_of_batch.
  cbn [map fst snd row_of_col cells_of age_group_col tenure_group_col
       salary_bin_col b_age b_tenure b_salary b_projects].
  now rewrite !dummy_cell by assumption.
Qed.

Lemma bin_part_numeric (b : batch) (c : string) (col : column) :
  lookup c (bin_part b) = Some col -> exists v, col = NumCol v.
Proof.
  intros H.
  assert (Hnum : Forall (fun lc => is_encoded (snd lc) = false)
                        (columns (mkDF 0 (bin_part b)))).
  { repeat constructor. }
  destruct (numeric_col_or_zero (mkDF 0 (bin_part b)) c Hnum) as [v Hv].
  unfold col_or_zero in Hv. cbn [columns] in Hv. rewrite H in Hv. eauto.
Qed.

(** Under a batch-independent label the record alone has the cell it has in
    the batch; under any other label it has 0. *)
Lemma cell_alone (n : nat) (b : batch) (i : nat) (c : string) :
  (i < length (b_salary b))%nat -> (i < length (b_age b))%nat ->
  (i < length (b_tenure b))%nat ->
  cell (encoded_of 1 (row_of_batch i b)) c 0
  = if is_bin_column c then cell (encoded_of n b) c i else Some 0%Q.
Proof.
  intros Hs Ha Ht.
  unfold cell, col_or_zero.
  rewrite !encoded_columns, !lookup_app, obj_part_alone.
  rewrite (bin_part_alone b i Hs Ha Ht), lookup_row_of_cols.
  unfold is_bin_column. change bin_columns with (labels_of (bin_part b)).
  rewrite lookup_member.
  destruct (lookup c (bin_part b)) as [col|] eqn:L; cbn [option_map].
  - destruct (bin_part_numeric b c col L) as [v ->]. reflexivity.
  - reflexivity.
Qed.

Lemma holds_record_alone (df : DataFrame) (b : batch) (i : nat) :
  holds df b -> holds (record_alone i df) (row_of_batch i b).
Proof.
  intros [[Ha [Ht [Hs Hp]]] [[Hd [Hti [Hsx Hr]]] _]].
  unfold holds, record_alone, row_of_batch. cbn [columns nrows b_age b_tenure
    b_salary b_projects b_dept b_title b_sex b_rating length].
  rewrite !lookup_row_of_cols, Ha, Ht, Hs, Hp, Hd, Hti, Hsx, Hr.
  repeat split.
Qed.

Lemma keep_bin_columns_cells (mc : list string) (g : string -> num) :
  keep_bin_columns mc (map g mc)
  = map (fun c => if is_bin_column c then g c else Some 0%Q) mc.
Proof.
  unfold keep_bin_columns.
  induction mc as [|c rest IH]; cbn [map combine fst snd]; [reflexivity|].
  now rewrite IH.
Qed.

(** How far a record's row depends on its batch. With a scaler that works
    row by row, the row of a record run alone is the scaled image of its
    aligned row in the batch once every cell outside no_of_projects and the
    bin indicators is replaced by 0: the record alone agrees with its batch
    row under those labels, and loses every indicator of dept_name, title,
    sex and Last_performance_rating. *)
Lemma row_alone_keeps_bin_columns
        (V : Type) (scale_row : list num -> list V)
        (scaler_transform : list (list num) -> list (list V))
        (model_columns : list string)
        (df : DataFrame) (b : batch) (i : nat) :
  (forall X, scaler_transform X = map scale_row X) ->
  holds df b ->
  (i < nrows df)%nat ->
  exists X row,
    nth_error X i = Some row /\
    fst (preprocess_input V scaler_transform model_columns df)
    = Ok (map scale_row X) /\
    fst (preprocess_input V scaler_transform model_columns
           (record_alone i df))
    = Ok [scale_row (keep_bin_columns model_columns row)].
Proof.
  intros Hscale H Hi.
  pose proof (holds_record_alone df b i H) as Halone.
  exists (aligned_matrix model_columns (encoded_of (nrows df) b)),
         (map (fun c => cell (encoded_of (nrows df) b) c i) model_columns).
  split; [apply aligned_matrix_row; exact Hi|].
  rewrite (preprocess_input_typed _ _ _ _ _ H).
  rewrite (preprocess_input_typed _ _ _ _ _ Halone).
  cbn [fst]. rewrite !Hscale. split; [reflexivity|].
  destruct H as [_ [_ [[La [Lt [Ls _]]] _]]].
  unfold aligned_matrix. cbn [nrows record_alone encoded_of get_dummies
    processed_of seq map].
  rewrite keep_bin_columns_cells. do 3 f_equal.
  apply map_ext. intros c.
  apply (cell_alone (nrows df)); lia.
Qed.

Lemma row_alone_keeps_bin_columns_on_two_records :
  exists X row,
    nth_error X 0 = Some row /\
    fst (preprocess_input num identity_scaler sample_columns two_records)
    = Ok (map (fun r => r) X) /\
    fst (preprocess_input num identity_scaler sample_columns
           (record_alone 0 two_records))
    = Ok [keep_bin_columns sample_columns row].
Proof.
  apply (row_alone_keeps_bin_columns num (fun r => r) identity_scaler
           sample_columns two_records two_records_batch 0).
  - intros X. unfold identity_scaler. symmetry. apply map_id.
  - exact holds_two_records.
  - cbn. lia.
Defined.

(** C7. A record's row of the output matrix should be the same whether the
    record is run alone or in a batch; the code does not keep to that. Two
    records, every value inside the bins, an identity scaler: in the batch
    the first record has the indicator dept_name_Sales set, run alone it
    has not, so its two rows differ. *)
Theorem row_depends_on_batch :
  cells_of (age_group_col two_records_batch) = [Some "29-36"; Some "37-45"] /\
  cells_of (tenure_group_col two_records_batch) = [Some "0-5"; Some "6-11"] /\
  cells_of (salary_bin_col two_records_batch) = [Some "low"; Some "medium"] /\
  fst (preprocess_input num identity_scaler sample_columns two_records)
  = Ok [[Some 3; Some 0; Some 0; Some 0; Some 1; Some 1; Some 0];
        [Some 4; Some 1; Some 0; Some 0; Some 0; Some 0; Some 1]]%Q /\
  fst (preprocess_input num identity_scaler sample_columns
         (record_alone 0 two_records))
  = Ok [[Some 3; Some 0; Some 0; Some 0; Some 1; Some 0; Some 0]]%Q /\
  [Some 3; Some 0; Some 0; Some 0; Some 1; Some 1; Some 0]%Q
  <> [Some 3; Some 0; Some 0; Some 0; Some 1; Some 0; Some 0]%Q.
Proof.
  repeat (split; [reflexivity|]). discriminate.
Qed.

(** ** Labels stay unique *)

(** [lookup] reads the first column of a label; in the frames of the
    pipeline it is the only one. *)

Lemma insert_sorted_perm (s : string) (l : list string) :
  Permutation (s :: l) (insert_sorted s l).
Proof.
  induction l as [|x rest IH]; cbn; [apply Permutation_refl|].
  destruct (String.leb s x); [apply Permutation_refl|].
  eapply Permutation_trans; [apply perm_swap|]. now apply perm_skip.
Qed.

Lemma sort_strings_perm (l : list string) : Permutation l (sort_strings l).
Proof.
  unfold sort_strings. induction l as [|x rest IH]; cbn [fold_right].
  - apply Permutation_refl.
  - eapply Permutation_trans; [|apply insert_sorted_perm]. now apply perm_skip.
Qed.

Lemma levels_object_nodup (vals : list txt) : NoDup (levels_of (ObjCol vals)).
Proof.
  cbn [levels_of]. eapply Permutation_NoDup; [apply sort_strings_perm|].
  apply NoDup_nodup.
Qed.

Lemma append_injective (p a b : string) :
  (p ++ a)%string = (p ++ b)%string -> a = b.
Proof.
  induction p as [|ch p IH]; cbn; intros H; [exact H|].
  injection H as H. exact (IH H).
Qed.

Lemma object_dummies_nodup (prefix : string) (vals : list txt) :
  NoDup (labels_of (get_dummies_1d prefix (ObjCol vals))).
Proof.
  rewrite get_dummies_1d_labels.
  pose proof (levels_object_nodup vals) as Hnd.
  destruct (levels_of (ObjCol vals)) as [|l0 rest]; cbn [tl]; [constructor|].
  inversion Hnd as [|? ? _ Hrest]; subst. clear Hnd.
  induction rest as [|x xs IH]; cbn [map]; [constructor|].
  inversion Hrest as [|? ? Hx Hxs]; subst. constructor; [|now apply IH].
  intros Hin. apply in_map_iff in Hin. destruct Hin as [y [Heq Hy]].
  apply append_injective in Heq. injection Heq as ->. contradiction.
Qed.

Lemma in_labels_lookup (c : string) cols :
  In c (labels_of cols) -> lookup c cols <> None.
Proof. intros Hin Hnone. now apply lookup_none_iff in Hnone. Qed.

Lemma dummies_disjoint (p q : string) (c1 c2 : column) :
  (forall a b, String.eqb (p ++ "_" ++ a) (q ++ "_" ++ b) = false) ->
  forall l, In l (labels_of (get_dummies_1d p c1)) ->
            ~ In l (labels_of (get_dummies_1d q c2)).
Proof.
  intros Hpq l H1 H2. rewrite get_dummies_1d_labels in H1, H2.
  apply in_map_iff in H1. destruct H1 as [a [<- _]].
  apply in_map_iff in H2. destruct H2 as [b0 [Heq _]].
  symmetry in Heq. apply String.eqb_eq in Heq.
  rewrite Hpq in Heq. discriminate.
Qed.

Lemma bin_columns_nodup : NoDup bin_columns.
Proof.
  unfold bin_columns.
  repeat (constructor; [cbn; intuition discriminate|]). constructor.
Qed.

Ltac disjoint_dummies :=
  match goal with
  | H1 : In ?l _, H2 : In ?l _ |- False =>
      apply (fun Hpq => dummies_disjoint _ _ _ _ Hpq l H1 H2);
      intros; reflexivity
  end.

Lemma obj_part_nodup (b : batch) : NoDup (labels_of (obj_part b)).
Proof.
  unfold obj_part, labels_of. rewrite !map_app.
  apply NoDup_app.
  - apply object_dummies_nodup.
  - apply NoDup_app.
    + apply object_dummies_nodup.
    + apply NoDup_app; try apply object_dummies_nodup.
      intros l H1 H2. disjoint_dummies.
    + intros l H1 H2. apply in_app_or in H2.
      destruct H2 as [H2 | H2]; disjoint_dummies.
  - intros l H1 H2. apply in_app_or in H2. destruct H2 as [H2 | H2].
    + disjoint_dummies.
    + apply in_app_or in H2. destruct H2 as [H2 | H2]; disjoint_dummies.
Qed.

(** The encoded frame of a well-typed batch has no label twice. *)
Lemma encoded_labels_nodup (n : nat) (b : batch) :
  NoDup (labels_of (columns (encoded_of n b))).
Proof.
  rewrite encoded_columns. unfold labels_of. rewrite map_app.
  apply NoDup_app.
  - exact bin_columns_nodup.
  - apply obj_part_nodup.
  - intros l H1 H2.
    apply (in_labels_lookup l (obj_part b) H2).
    change (map fst (bin_part b)) with bin_columns in H1.
    unfold bin_columns in H1. cbn [In] in H1.
    repeat (destruct H1 as [<- | H1];
            [apply obj_part_lookup_none; intros lv; reflexivity|]).
    contradiction.
Qed.

(** The loop that adds the missing columns may visit them in any order. *)
Lemma add_columns_order (ms ms' : list string) (e : DataFrame)
      (mc : list string) :
  (forall c, In c ms <-> In c ms') ->
  getitems (add_columns ms e) mc = getitems (add_columns ms' e) mc.
Proof.
  intros Hsame. unfold getitems. rewrite !add_columns_nrows. f_equal.
  induction mc as [|c rest IH]; cbn [rmap]; [reflexivity|].
  rewrite IH. f_equal. unfold getitem. rewrite !add_columns_lookup.
  assert (E : existsb (String.eqb c) ms = existsb (String.eqb c) ms').
  { apply eq_true_iff_eq. rewrite !existsb_exists. split.
    - intros [x [Hx Hc]]. exists x. split; [now apply Hsame | exact Hc].
    - intros [x [Hx Hc]]. exists x. split; [now apply Hsame | exact Hc]. }
  now rewrite E.
Qed.

Lemma align_reindexes_witness :
  exists a,
    align ["sex_M"; "no_of_projects"]
          (mkDF 1 [("no_of_projects", NumCol [Some 3%Q]);
                   ("title_Manager", NumCol [Some 1%Q])])
    = Ok a /\
    columns a = [("sex_M", NumCol [Some 0%Q]);
                 ("no_of_projects", NumCol [Some 3%Q])].
Proof.
  destruct (align_reindexes
              ["sex_M"; "no_of_projects"]
              (mkDF 1 [("no_of_projects", NumCol [Some 3%Q]);
                       ("title_Manager", NumCol [Some 1%Q])]))
    as [a [Ha _]].
  exists a. split; [exact Ha|].
  cbn in Ha. injection Ha as <-. reflexivity.
Defined.

Lemma set_col_labels_nodup (l : string) (c : column) cols :
  NoDup (labels_of cols) -> NoDup (labels_of (set_col l c cols)).
Proof.
  intros Hnd. destruct (lookup l cols) as [c0|] eqn:L.
  - rewrite labels_set_col_present; [exact Hnd|].
    destruct (in_dec string_dec l (labels_of cols)) as [Hin | Hout];
      [exact Hin|].
    apply lookup_none_iff in Hout. congruence.
  - rewrite (set_col_absent l c cols L). unfold labels_of. rewrite map_app.
    apply NoDup_app; [exact Hnd | repeat constructor; intros [] |].
    intros a Ha [<- | []]. now apply lookup_none_iff in L.
Qed.

(** The caller's frame keeps unique labels through the three assignments. *)
Lemma with_bins_labels_nodup (df : DataFrame) (b : batch) :
  NoDup (labels_of (columns df)) ->
  NoDup (labels_of (columns (with_bins df b))).
Proof.
  intros Hnd. unfold with_bins, setitem. cbn [columns].
  now repeat apply set_col_labels_nodup.
Qed.

(** * Further properties of model.py *)

(** ** Authentication *)

Lemma check_login_granted (s : session_state) (w : login_widgets) :
  s = Some true -> check_login s w = (Returned true None, Some true).
Proof. intros ->. reflexivity. Qed.

Lemma script_session (s : session_state) (w : login_widgets) :
  fst (script s w) = AppPage -> snd (script s w) = Some true.
Proof.
  unfold script, check_login.
  destruct s as [[|]|]; cbn; try discriminate; try reflexivity;
    destruct (w_submit w); try discriminate;
    destruct (String.eqb (w_username w) "admin"
              && String.eqb (w_password w) "admin@123"); discriminate.
Qed.

Lemma credentials_iff (u p : string) :
  String.eqb u "admin" && String.eqb p "admin@123" = true
  <-> u = "admin" /\ p = "admin@123".
Proof. now rewrite andb_true_iff, !String.eqb_eq. Qed.

(** X1. In a session that is not logged in, pressing 'Login' logs the
    session in exactly when the username is admin and the password is
    admin@123; any other pair leaves the session logged out, shows
    'Invalid credentials' and makes [check_login] return False. *)
Theorem login_iff_credentials (s : session_state) (u p : string) :
  s <> Some true ->
  (snd (check_login s (mkLogin u p true)) = Some true
   <-> u = "admin" /\ p = "admin@123") /\
  (~ (u = "admin" /\ p = "admin@123") ->
   check_login s (mkLogin u p true)
   = (Returned false (Some "Invalid credentials"), Some false)).
Proof.
  intros Hs. unfold check_login. cbn [w_submit w_username w_password].
  pose proof (credentials_iff u p) as Hc.
  destruct (String.eqb u "admin" && String.eqb p "admin@123").
  - destruct s as [[|]|]; try congruence;
      (split; [cbn; tauto | intros Hn; exfalso; apply Hn; now apply Hc]).
  - destruct s as [[|]|]; try congruence;
      (split; [cbn; split; [discriminate | intros H; apply Hc in H; discriminate]
              | reflexivity]).
Qed.

Lemma login_iff_credentials_witness :
  check_login None (mkLogin "Admin" "admin@123" true)
  = (Returned false (Some "Invalid credentials"), Some false).
Proof.
  apply (login_iff_credentials None "Admin" "admin@123").
  - discriminate.
  - intros [H _]. discriminate H.
Defined.

(** X2. From any session state, submitting admin / admin@123 ends on the
    application page with the session logged in, and whatever is submitted
    the rerun asked by the script never asks for another one. *)
Theorem submit_settles (s : session_state) :
  handle s (Submit "admin" "admin@123") = (AppPage, Some true) /\
  forall e, fst (handle s e) <> Rerunning.
Proof.
  split.
  - destruct s as [[|]|]; reflexivity.
  - intros [|u p|]; unfold handle, script, check_login;
      cbn [w_submit w_username w_password logout].
    + destruct s as [[|]|]; discriminate.
    + destruct s as [[|]|]; cbn; try discriminate;
        destruct (String.eqb u "admin" && String.eqb p "admin@123");
        cbn; discriminate.
    + discriminate.
Qed.

Lemma handle_logged_in (s : session_state) (e : event) :
  snd (handle s e) = Some true ->
  (s = Some true /\ e <> ClickLogout) \/ e = Submit "admin" "admin@123".
Proof.
  destruct e as [|u p|]; unfold handle, script, check_login;
    cbn [w_submit w_username w_password logout].
  - destruct s as [[|]|]; cbn; intros H; try discriminate.
    left. split; [reflexivity | discriminate].
  - pose proof (credentials_iff u p) as Hc.
    destruct s as [[|]|]; cbn.
    + intros _. left. split; [reflexivity | discriminate].
    + destruct (String.eqb u "admin" && String.eqb p "admin@123"); cbn;
        intros H; try discriminate.
      right. destruct (proj1 Hc eq_refl) as [-> ->]. reflexivity.
    + destruct (String.eqb u "admin" && String.eqb p "admin@123"); cbn;
        intros H; try discriminate.
      right. destruct (proj1 Hc eq_refl) as [-> ->]. reflexivity.
  - cbn. discriminate.
Qed.

Lemma handle_page_session (s : session_state) (e : event) :
  fst (handle s e) = AppPage -> snd (handle s e) = Some true.
Proof.
  destruct e as [|u p|]; unfold handle.
  - apply script_session.
  - destruct (script s (mkLogin u p true)) as [[err| |] s'] eqn:E.
    + cbn. discriminate.
    + intros _. rewrite <- E. apply script_session. now rewrite E.
    + apply script_session.
  - apply script_session.
Qed.

Lemma replay_snoc (events : list event) (e : event) :
  replay (events ++ [e]) = handle (snd (replay events)) e.
Proof. unfold replay. now rewrite fold_left_app. Qed.

(** X3. In a browser session that starts logged out, the application page
    is shown only if admin / admin@123 was submitted at some point and
    'Logout' was not pressed since. *)
Theorem app_requires_login (events : list event) :
  fst (replay events) = AppPage ->
  exists before after,
    events = before ++ Submit "admin" "admin@123" :: after /\
    ~ In ClickLogout after.
Proof.
  assert (Hinv : forall evs,
             snd (replay evs) = Some true ->
             exists before after,
               evs = before ++ Submit "admin" "admin@123" :: after /\
               ~ In ClickLogout after).
  { induction evs as [|e evs IH] using rev_ind.
    - cbn. discriminate.
    - rewrite replay_snoc. intros H.
      apply handle_logged_in in H. destruct H as [[Hs He] | ->].
      + destruct (IH Hs) as [before [after [-> Hno]]].
        exists before, (after ++ [e]). split.
        * now rewrite <- app_assoc.
        * intros Hin. apply in_app_or in Hin.
          destruct Hin as [Hin | [Hin | []]]; [now apply Hno | congruence].
      + exists evs, []. split; [reflexivity | intros []]. }
  intros Hpage. apply Hinv.
  destruct events as [|e evs] using rev_ind.
  - cbn in Hpage. discriminate.
  - rewrite replay_snoc in *. now apply handle_page_session.
Qed.

Lemma app_requires_login_witness :
  exists before after,
    [Submit "guest" "guest"; Submit "admin" "admin@123"; Load]
    = before ++ Submit "admin" "admin@123" :: after /\
    ~ In ClickLogout after.
Proof.
  apply app_requires_login. reflexivity.
Defined.

(** ** Buckets *)






Lemma inject_Z_lt (a b : Z) : (inject_Z a < inject_Z b)%Q <-> (a < b)%Z.
Proof. rewrite (Zlt_Qlt a b). reflexivity. Qed.

Lemma inject_Z_le (a b : Z) : (inject_Z a <= inject_Z b)%Q <-> (a <= b)%Z.
Proof. rewrite (Zle_Qle a b). reflexivity. Qed.



(** ** The pipeline on any frame *)

Lemma has_column_lookup (df : DataFrame) (c : string) :
  has_column df c = true -> exists col, lookup c (columns df) = Some col.
Proof.
  unfold has_column. destruct (lookup c (columns df)) as [col|];
    [eauto | discriminate].
Qed.

Lemma pd_cut_type_error (c : column) :
  read_as_numeric_or_text (Some c) = true ->
  is_numeric (Some c) = false ->
  pd_cut c age_bins age_labels = Raise TypeError /\
  pd_cut c tenure_bins tenure_labels = Raise TypeError /\
  pd_cut c salary_bins salary_labels = Raise TypeError.
Proof.
  destruct c as [v|v|cats v]; cbn [is_numeric read_as_numeric_or_text];
    intros Hr H; try discriminate.
  unfold pd_cut. rewrite Hr. repeat split.
Qed.

Lemma count_labels_total (predictions : list Z) :
  (count_label "Stay" (ObjCol (map prediction_label predictions))
   + count_label "Leave" (ObjCol (map prediction_label predictions))
   = length predictions)%nat.
Proof.
  unfold count_label. cbn [cells_of].
  induction predictions as [|p rest IH]; [reflexivity|].
  cbn [map filter prediction_label].
  destruct (Z.eqb p 1); cbn [String.eqb Ascii.eqb Bool.eqb length];
    cbn; lia.
Qed.

Section AnyFrame.

Variable V : Type.
Variable scaler_transform : list (list num) -> list (list V).
Variable model_columns : list string.
Variable model_predict : list (list V) -> list Z.
Variable model_predict_proba : list (list V) -> list (Q * Q).

(** X6. Whatever frame it is given and whether it returns or raises,
    [preprocess_input] leaves the index of the caller's frame and every
    column under a label other than age_group, tenure_group and salary_bin
    as they were. *)
Theorem preprocess_input_touches_only_bins (df : DataFrame) :
  nrows (snd (preprocess_input V scaler_transform model_columns df))
  = nrows df /\
  forall l,
    l <> "age_group" -> l <> "tenure_group" -> l <> "salary_bin" ->
    lookup l (columns (snd (preprocess_input V scaler_transform
                              model_columns df)))
    = lookup l (columns df).
Proof.
  split; [apply preprocess_input_nrows|].
  intros l H1 H2 H3. apply String.eqb_neq in H1, H2, H3.
  unfold preprocess_input, bind, get_column, lift, assign, select, ret.
  repeat match goal with
         | |- context [match ?r with Ok _ => _ | Raise _ => _ end] =>
             destruct r
         end;
    cbn [snd setitem columns];
    now rewrite ?lookup_set_col_other by assumption.
Qed.

(** X7. A missing source column stops the pipeline with a KeyError naming
    it, and what was written before stays written: without [age] the frame
    is untouched; with a numeric [age] and no [tenure] the frame has already
    gained age_group; with numeric [age] and [tenure] and no [salary] it has
    gained age_group and tenure_group. *)
Theorem missing_source_column_raises (df : DataFrame) :
  (lookup "age" (columns df) = None ->
   preprocess_input V scaler_transform model_columns df
   = (Raise (KeyError "age"), df)) /\
  (forall age,
      lookup "age" (columns df) = Some (NumCol age) ->
      lookup "tenure" (columns df) = None ->
      preprocess_input V scaler_transform model_columns df
      = (Raise (KeyError "tenure"),
         setitem df "age_group"
                 (CatCol age_labels (map (cut_value age_bins age_labels) age)))) /\
  (forall age tenure,
      lookup "age" (columns df) = Some (NumCol age) ->
      lookup "tenure" (columns df) = Some (NumCol tenure) ->
      lookup "salary" (columns df) = None ->
      preprocess_input V scaler_transform model_columns df
      = (Raise (KeyError "salary"),
         setitem
           (setitem df "age_group"
                    (CatCol age_labels (map (cut_value age_bins age_labels) age)))
           "tenure_group"
           (CatCol tenure_labels
                   (map (cut_value tenure_bins tenure_labels) tenure)))).
Proof.
  unfold preprocess_input, bind, get_column, lift, assign, select, ret, getitem.
  split; [|split].
  - intros La. now rewrite La.
  - intros age La Lt. rewrite La, pd_cut_age.
    cbn [setitem columns nrows]. lookups. now rewrite Lt.
  - intros age tenure La Lt Ls. rewrite La, pd_cut_age.
    cbn [setitem columns nrows]. lookups. rewrite Lt, pd_cut_tenure.
    cbn [setitem columns nrows]. lookups. now rewrite Ls.
Qed.

Lemma select_features_any (df : DataFrame) (ag tg sb c1 c2 c3 c4 c5 : column) :
  lookup "no_of_projects" (columns df) = Some c1 ->
  lookup "dept_name" (columns df) = Some c2 ->
  lookup "title" (columns df) = Some c3 ->
  lookup "sex" (columns df) = Some c4 ->
  lookup "Last_performance_rating" (columns df) = Some c5 ->
  getitems (setitem (setitem (setitem df "age_group" ag) "tenure_group" tg)
                    "salary_bin" sb) features
  = Ok (mkDF (nrows df)
             [("no_of_projects", c1); ("salary_bin", sb); ("age_group", ag);
              ("tenure_group", tg); ("dept_name", c2); ("title", c3);
              ("sex", c4); ("Last_performance_rating", c5)]).
Proof.
  intros H1 H2 H3 H4 H5.
  unfold getitems, features, getitem, setitem. cbn [rmap columns nrows].
  lookups. rewrite H1, H2, H3, H4, H5. reflexivity.
Qed.

(** X8. Behind the guard of the upload branch (all eight columns present),
    on a file of at least one record whose age, tenure and salary columns
    are numeric or text, preprocessing returns exactly when the three are
    numeric, and then hands the scaler a matrix with one row per record and
    one cell per model column; otherwise it raises TypeError from [pd.cut].
    It never raises KeyError there. *)
Theorem guarded_preprocessing (df : DataFrame) :
  forallb (has_column df) required_cols = true ->
  (1 <= nrows df)%nat ->
  binned_sources_as_read df = true ->
  if binned_sources_numeric df then
    exists X,
      fst (preprocess_input V scaler_transform model_columns df)
      = Ok (scaler_transform X) /\
      has_shape (nrows df) (length model_columns) X
  else
    fst (preprocess_input V scaler_transform model_columns df)
    = Raise TypeError.
Proof.
  intros Hreq _ Hread. rewrite forallb_forall in Hreq.
  assert (Hcol : forall c, In c required_cols ->
                           exists col, lookup c (columns df) = Some col).
  { intros c Hc. apply has_column_lookup, Hreq, Hc. }
  destruct (Hcol "age") as [ca La]; [cbn; tauto|].
  destruct (Hcol "tenure") as [ct Lt]; [cbn; tauto|].
  destruct (Hcol "salary") as [cs Ls]; [cbn; tauto|].
  destruct (Hcol "no_of_projects") as [c1 L1]; [cbn; tauto|].
  destruct (Hcol "dept_name") as [c2 L2]; [cbn; tauto|].
  destruct (Hcol "title") as [c3 L3]; [cbn; tauto|].
  destruct (Hcol "sex") as [c4 L4]; [cbn; tauto|].
  destruct (Hcol "Last_performance_rating") as [c5 L5]; [cbn; tauto|].
  unfold binned_sources_as_read in Hread. rewrite La, Lt, Ls in Hread.
  apply andb_true_iff in Hread. destruct Hread as [Hread Rs].
  apply andb_true_iff in Hread. destruct Hread as [Ra Rt].
  unfold binned_sources_numeric. rewrite La, Lt, Ls.
  unfold preprocess_input, bind, get_column, lift, assign, select, ret, getitem.
  rewrite La.
  destruct (is_numeric (Some ca)) eqn:Na; cbn [andb];
    [|now rewrite (proj1 (pd_cut_type_error ca Ra Na))].
  destruct ca as [age| |]; try discriminate. rewrite pd_cut_age.
  cbn [setitem columns nrows]. lookups. rewrite Lt.
  destruct (is_numeric (Some ct)) eqn:Nt; cbn [andb];
    [|now rewrite (proj1 (proj2 (pd_cut_type_error ct Rt Nt)))].
  destruct ct as [tenure| |]; try discriminate. rewrite pd_cut_tenure.
  cbn [setitem columns nrows]. lookups. rewrite Ls.
  destruct (is_numeric (Some cs)) eqn:Ns;
    [|now rewrite (proj2 (proj2 (pd_cut_type_error cs Rs Ns)))].
  destruct cs as [salary| |]; try discriminate. rewrite pd_cut_salary.
  pose proof (select_features_any df
                (CatCol age_labels (map (cut_value age_bins age_labels) age))
                (CatCol tenure_labels
                        (map (cut_value tenure_bins tenure_labels) tenure))
                (CatCol salary_labels
                        (map (cut_value salary_bins salary_labels) salary))
                c1 c2 c3 c4 c5 L1 L2 L3 L4 L5) as Hsel.
  rewrite Hsel.
  rewrite align_aligned, to_matrix_aligned by apply numeric_get_dummies.
  eexists. split; [reflexivity|].
  apply (aligned_matrix_shape model_columns
           (get_dummies
              (mkDF (nrows df)
                 [("no_of_projects", c1);
                  ("salary_bin", CatCol salary_labels
                     (map (cut_value salary_bins salary_labels) salary));
                  ("age_group", CatCol age_labels
                     (map (cut_value age_bins age_labels) age));
                  ("tenure_group", CatCol tenure_labels
                     (map (cut_value tenure_bins tenure_labels) tenure));
                  ("dept_name", c2); ("title", c3); ("sex", c4);
                  ("Last_performance_rating", c5)]))).
Qed.

(** X9. Whenever the upload branch shows its report, the counts add up:
    the total is the number of rows of the upload and is at least 1, the
    staying and the leaving employees together are the total, and the frame
    shown is the frame left to the caller. *)
Theorem report_counts (df shown df' : DataFrame) (total stay leave : nat) :
  upload_csv V scaler_transform model_columns
             model_predict model_predict_proba df
  = (Report shown total stay leave, df') ->
  total = nrows df /\ (1 <= total)%nat /\
  (stay + leave = total)%nat /\ shown = df'.
Proof.
  unfold upload_csv.
  destruct (forallb (has_column df) required_cols); [|discriminate].
  pose proof (preprocess_input_nrows V scaler_transform model_columns df)
    as Hrows.
  destruct (preprocess_input V scaler_transform model_columns df)
    as [[X|e] df1]; [|discriminate].
  cbn [snd] in Hrows. unfold setitem_values, setitem.
  cbn [col_len nrows columns]. rewrite !length_map.
  destruct (Nat.eqb (length (model_predict X)) (nrows df1)) eqn:E1;
    [|discriminate].
  cbn [nrows].
  destruct (Nat.eqb (length (model_predict_proba X)) (nrows df1)) eqn:E2;
    [|discriminate].
  cbn [nrows].
  destruct (Nat.eqb (nrows df1) 0) eqn:E0; [discriminate|].
  intros H. injection H as <- <- <- <- <-.
  apply Nat.eqb_eq in E1. apply Nat.eqb_neq in E0.
  cbn [nrows]. unfold count_rows. cbn [columns]. lookups.
  rewrite count_labels_total. repeat split; lia.
Qed.

End AnyFrame.

Lemma preprocess_input_touches_only_bins_witness :
  lookup "salary"
         (columns (snd (preprocess_input num identity_scaler sample_columns
                          text_age_upload)))
  = lookup "salary" (columns text_age_upload).
Proof.
  apply (preprocess_input_touches_only_bins num identity_scaler sample_columns
           text_age_upload); discriminate.
Defined.

Lemma missing_source_column_raises_witness :
  preprocess_input num identity_scaler sample_columns no_age_upload
  = (Raise (KeyError "age"), no_age_upload).
Proof.
  apply (missing_source_column_raises num identity_scaler sample_columns
           no_age_upload). reflexivity.
Defined.

Lemma guarded_preprocessing_witness :
  (exists X,
      fst (preprocess_input num identity_scaler sample_columns two_records)
      = Ok (identity_scaler X) /\
      has_shape 2 7 X) /\
  fst (preprocess_input num identity_scaler sample_columns text_age_upload)
  = Raise TypeError.
Proof.
  split.
  - apply (guarded_preprocessing num identity_scaler sample_columns
             two_records); [reflexivity | cbn; lia | reflexivity].
  - apply (guarded_preprocessing num identity_scaler sample_columns
             text_age_upload); [reflexivity | cbn; lia | reflexivity].
Defined.

Lemma report_counts_witness :
  2%nat = nrows two_records /\ (1 <= 2)%nat /\ (2 + 0 = 2)%nat /\
  snd (upload_csv num identity_scaler sample_columns
                  stay_predict stay_predict_proba two_records)
  = snd (upload_csv num identity_scaler sample_columns
                    stay_predict stay_predict_proba two_records).
Proof.
  apply (report_counts num identity_scaler sample_columns
           stay_predict stay_predict_proba two_records
           (snd (upload_csv num identity_scaler sample_columns
                            stay_predict stay_predict_proba two_records))
           (snd (upload_csv num identity_scaler sample_columns
                            stay_predict stay_predict_proba two_records))
           2 2 0).
  reflexivity.
Defined.

(** ** The manual form *)

Lemma encoded_form (f : form) :
  encoded_of 1 (batch_of_form f) = mkDF 1 (bin_part (batch_of_form f)).
Proof. reflexivity. Qed.

Lemma salary_low (x : Q) :
  (40000 <= x < 60000)%Q -> salary_bin_of x = Some "low".
Proof.
  intros [Hlo Hhi]. unfold salary_bin_of, cut_value, salary_bins.
  cbn [searchsorted_right]. cut_cases x.
Qed.

Section ManualForm.

Variable V : Type.
Variable scaler_transform : list (list num) -> list (list V).
Variable model_columns : list string.
Variable model_predict : list (list V) -> list Z.
Variable model_predict_proba : list (list V) -> list (Q * Q).

Lemma manual_predict_bin_part (f g : form) :
  bin_part (batch_of_form f) = bin_part (batch_of_form g) ->
  manual_predict V scaler_transform model_columns
                 model_predict model_predict_proba f
  = manual_predict V scaler_transform model_columns
                   model_predict model_predict_proba g.
Proof.
  intros H. unfold manual_predict.
  rewrite (preprocess_input_typed _ _ _ _ _ (holds_form_frame f)).
  rewrite (preprocess_input_typed _ _ _ _ _ (holds_form_frame g)).
  cbn [nrows form_frame]. now rewrite !encoded_form, H.
Qed.

(** X10. The manual form's answer does not depend on the department, job
    title, gender or performance rating selected: two submissions with the
    same number of projects, salary, age and tenure get the same message
    and the same probability. *)
Theorem manual_ignores_text_fields (f g : form) :
  same_projects_age_tenure f g ->
  f_salary f = f_salary g ->
  manual_predict V scaler_transform model_columns
                 model_predict model_predict_proba f
  = manual_predict V scaler_transform model_columns
                   model_predict model_predict_proba g.
Proof.
  intros [Hp [Ha Ht]] Hs. apply manual_predict_bin_part.
  unfold bin_part, batch_of_form, salary_bin_col, age_group_col,
    tenure_group_col.
  cbn [b_age b_tenure b_salary b_projects]. now rewrite Hp, Ha, Ht, Hs.
Qed.

(** X11. A salary of 130000, which has no bucket, is answered as any salary
    of the lowest bucket is: with the same number of projects, age and
    tenure, a submission with salary 130000 and one with a salary from 40000
    to 59999 get the same message and the same probability. *)
Theorem top_salary_answered_as_low (f g : form) :
  same_projects_age_tenure f g ->
  (40000 <= f_salary f < 60000)%Z ->
  f_salary g = 130000%Z ->
  manual_predict V scaler_transform model_columns
                 model_predict model_predict_proba f
  = manual_predict V scaler_transform model_columns
                   model_predict model_predict_proba g.
Proof.
  intros [Hp [Ha Ht]] [Hlo Hhi] Hg. apply manual_predict_bin_part.
  assert (Hlow : salary_bin_of (inject_Z (f_salary f)) = Some "low").
  { apply salary_low.
    change 40000%Q with (inject_Z 40000). change 60000%Q with (inject_Z 60000).
    now rewrite inject_Z_le, inject_Z_lt. }
  unfold bin_part, dummy_column, batch_of_form, salary_bin_col, age_group_col,
    tenure_group_col.
  cbn [b_age b_tenure b_salary b_projects cells_of map].
  change (cut_value salary_bins salary_labels (Some (inject_Z (f_salary f))))
    with (salary_bin_of (inject_Z (f_salary f))).
  rewrite Hlow, Hg, Hp, Ha, Ht. reflexivity.
Qed.

End ManualForm.

Lemma manual_ignores_text_fields_witness :
  manual_predict num identity_scaler sample_columns
                 stay_predict stay_predict_proba sample_form
  = manual_predict num identity_scaler sample_columns
                   stay_predict stay_predict_proba other_choices_form.
Proof.
  apply manual_ignores_text_fields.
  - repeat split.
  - reflexivity.
Defined.

Lemma top_salary_answered_as_low_witness :
  manual_predict num identity_scaler sample_columns
                 stay_predict stay_predict_proba sample_form
  = manual_predict num identity_scaler sample_columns
                   stay_predict stay_predict_proba top_salary_form.
Proof.
  apply top_salary_answered_as_low.
  - repeat split.
  - cbn. lia.
  - reflexivity.
Defined.

(** ** The encoded frame and the alignment loop *)

(** X12. The missing model columns are gathered in a Python set, whose
    iteration order is not fixed: in whatever order the loop adds them, and
    for any encoded frame, the aligned frame is the same. *)
Theorem align_any_order (model_columns order : list string)
        (encoded_df : DataFrame) :
  Permutation order (missing_cols model_columns encoded_df) ->
  getitems (add_columns order encoded_df) model_columns
  = align model_columns encoded_df.
Proof.
  intros Hperm. unfold align. apply add_columns_order.
  intros c. split; intros Hc.
  - exact (Permutation_in c Hperm Hc).
  - exact (Permutation_in c (Permutation_sym Hperm) Hc).
Qed.

Lemma align_any_order_witness :
  getitems (add_columns ["sex_M"; "dept_name_Sales"]
                        (mkDF 1 [("no_of_projects", NumCol [Some 3%Q])]))
           ["dept_name_Sales"; "no_of_projects"; "sex_M"]
  = align ["dept_name_Sales"; "no_of_projects"; "sex_M"]
          (mkDF 1 [("no_of_projects", NumCol [Some 3%Q])]).
Proof.
  apply align_any_order. apply perm_swap.
Defined.

Lemma get_dummies_1d_lengths (prefix : string) (c : column) :
  Forall (fun lc => col_len (snd lc) = length (cells_of c))
         (get_dummies_1d prefix c).
Proof.
  unfold get_dummies_1d. destruct (levels_of c) as [|l0 [|l1 rest]]; auto.
  apply Forall_forall. intros lc Hin. apply in_map_iff in Hin.
  destruct Hin as [lv [<- _]]. cbn. apply length_map.
Qed.

(** X13. The encoded frame of a well-typed batch is a well-formed numeric
    frame: no two of its columns share a label, every column is numeric
    and every column is as long as the batch. *)
Theorem encoded_frame_well_formed (df : DataFrame) (b : batch) :
  holds df b ->
  let encoded_df := encoded_of (nrows df) b in
  nrows encoded_df = nrows df /\
  NoDup (labels_of (columns encoded_df)) /\
  Forall (fun lc => exists v, snd lc = NumCol v /\ length v = nrows df)
         (columns encoded_df).
Proof.
  intros [_ [_ [[La [Lt [Ls Lp]]] [Ld [Lti [Lsx Lr]]]]]].
  split; [reflexivity|]. split; [apply encoded_labels_nodup|].
  cbv zeta. rewrite encoded_columns. apply Forall_app. split.
  - unfold bin_part, dummy_column, salary_bin_col, age_group_col,
      tenure_group_col. cbn [cells_of].
    repeat (constructor;
            [cbn [snd]; eexists; split; [reflexivity|];
             rewrite ?length_map; assumption|]).
    constructor.
  - assert (Hobj : forall prefix vals,
               length vals = nrows df ->
               Forall (fun lc => exists v, snd lc = NumCol v /\
                                           length v = nrows df)
                      (get_dummies_1d prefix (ObjCol vals))).
    { intros prefix vals Hlen.
      pose proof (numeric_get_dummies_1d prefix (ObjCol vals)) as Hnum.
      pose proof (get_dummies_1d_lengths prefix (ObjCol vals)) as Hl.
      rewrite Forall_forall in *. intros lc Hin.
      specialize (Hnum lc Hin). specialize (Hl lc Hin).
      destruct (snd lc) as [v| |]; try discriminate.
      exists v. split; [reflexivity|]. cbn in Hl. congruence. }
    unfold obj_part. repeat (apply Forall_app; split); now apply Hobj.
Qed.

Lemma encoded_frame_well_formed_witness :
  nrows (encoded_of 2 two_records_batch) = 2%nat /\
  NoDup (labels_of (columns (encoded_of 2 two_records_batch))) /\
  Forall (fun lc => exists v, snd lc = NumCol v /\ length v = 2%nat)
         (columns (encoded_of 2 two_records_batch)).
Proof.
  exact (encoded_frame_well_formed two_records two_records_batch
           holds_two_records).
Defined.

(** ** The reference category of an object column *)

Lemma leb_cases (a b : string) :
  String.leb a b = true <-> a = b \/ String.ltb a b = true.
Proof.
  unfold String.leb, String.ltb.
  destruct (String.compare a b) eqn:E.
  - apply String.compare_eq_iff in E. tauto.
  - tauto.
  - split; [discriminate|]. intros [-> | H]; [|discriminate].
    pose proof (proj2 (OrderedTypeEx.String_as_OT.cmp_eq b b) eq_refl) as H.
    unfold OrderedTypeEx.String_as_OT.cmp in H. congruence.
Qed.




Lemma leb_or_ltb (a b : string) : String.leb a b = true \/ String.ltb b a = true.
Proof.
  destruct (String.leb a b) eqn:E; [now left|]. right.
  destruct (String.leb_total a b) as [H | H]; [congruence|].
  apply leb_cases in H. destruct H as [-> | H]; [|exact H].
  assert (String.leb a a = true) by (apply leb_cases; now left). congruence.
Qed.







(** ** Binning in the pipeline *)

Lemma holds_edge_records : holds edge_records edge_records_batch.
Proof. repeat split. Qed.

Section Binning.

Variable V : Type.
Variable scaler_transform : list (list num) -> list (list V).
Variable model_columns : list string.

(** C2. Binning uses half-open intervals, lower edge included and upper edge
    excluded. On every well-typed batch, [pd.cut] returns for age, tenure
    and salary a category column over the labels of the feature, and
    [preprocess_input] stores it under age_group, tenure_group and
    salary_bin; in it, the cell of each record whose value lies between two
    consecutive edges holds the label of that interval: age in [21,29)
    gives "21-28", ..., [54,62) gives "54-61"; tenure in [0,6) gives "0-5",
    ..., [24,30) gives "24-29"; salary in [40000,60000) gives "low", ...,
    [100000,130000) gives "very_high". *)
Theorem pipeline_bins_half_open (df : DataFrame) (b : batch) :
  holds df b ->
  exists ages tenures salaries,
    (pd_cut (NumCol (b_age b)) age_bins age_labels
     = Ok (CatCol age_labels ages) /\
     pd_cut (NumCol (b_tenure b)) tenure_bins tenure_labels
     = Ok (CatCol tenure_labels tenures) /\
     pd_cut (NumCol (b_salary b)) salary_bins salary_labels
     = Ok (CatCol salary_labels salaries)) /\
    (lookup "age_group"
            (columns (snd (preprocess_input V scaler_transform
                             model_columns df)))
     = Some (CatCol age_labels ages) /\
     lookup "tenure_group"
            (columns (snd (preprocess_input V scaler_transform
                             model_columns df)))
     = Some (CatCol tenure_labels tenures) /\
     lookup "salary_bin"
            (columns (snd (preprocess_input V scaler_transform
                             model_columns df)))
     = Some (CatCol salary_labels salaries)) /\
    forall i x,
      (nth_error (b_age b) i = Some (Some x) ->
       ((21 <= x < 29)%Q -> nth_error ages i = Some (Some "21-28")) /\
       ((29 <= x < 37)%Q -> nth_error ages i = Some (Some "29-36")) /\
       ((37 <= x < 46)%Q -> nth_error ages i = Some (Some "37-45")) /\
       ((46 <= x < 54)%Q -> nth_error ages i = Some (Some "46-53")) /\
       ((54 <= x < 62)%Q -> nth_error ages i = Some (Some "54-61"))) /\
      (nth_error (b_tenure b) i = Some (Some x) ->
       ((0 <= x < 6)%Q -> nth_error tenures i = Some (Some "0-5")) /\
       ((6 <= x < 12)%Q -> nth_error tenures i = Some (Some "6-11")) /\
       ((12 <= x < 18)%Q -> nth_error tenures i = Some (Some "12-17")) /\
       ((18 <= x < 24)%Q -> nth_error tenures i = Some (Some "18-23")) /\
       ((24 <= x < 30)%Q -> nth_error tenures i = Some (Some "24-29"))) /\
      (nth_error (b_salary b) i = Some (Some x) ->
       ((40000 <= x < 60000)%Q -> nth_error salaries i = Some (Some "low")) /\
       ((60000 <= x < 80000)%Q ->
        nth_error salaries i = Some (Some "medium")) /\
       ((80000 <= x < 100000)%Q ->
        nth_error salaries i = Some (Some "high")) /\
       ((100000 <= x < 130000)%Q ->
        nth_error salaries i = Some (Some "very_high"))).
Proof.
  intros H.
  exists (map (cut_value age_bins age_labels) (b_age b)),
         (map (cut_value tenure_bins tenure_labels) (b_tenure b)),
         (map (cut_value salary_bins salary_labels) (b_salary b)).
  split; [now rewrite pd_cut_age, pd_cut_tenure, pd_cut_salary|].
  split.
  - rewrite (preprocess_input_typed _ _ _ _ _ H). cbn [snd].
    unfold with_bins, setitem, age_group_col, tenure_group_col,
      salary_bin_col. cbn [columns nrows].
    split; [now lookups|]. split; now lookups.
  - intros i x.
    destruct (cut_value_half_open x)
      as [A1 [A2 [A3 [A4 [A5 [T1 [T2 [T3 [T4 [T5 [S1 [S2 [S3 S4]]]]]]]]]]]]].
    unfold age_group_of, tenure_group_of, salary_bin_of in *.
    split; [|split]; intros Hx; rewrite (cut_cell _ _ _ _ _ Hx).
    + repeat split; intros Hr; f_equal; auto.
    + repeat split; intros Hr; f_equal; auto.
    + repeat split; intros Hr; f_equal; auto.
Qed.

End Binning.

Lemma pipeline_bins_half_open_witness :
  exists ages,
    pd_cut (NumCol (b_age edge_records_batch)) age_bins age_labels
    = Ok (CatCol age_labels ages) /\
    lookup "age_group"
           (columns (snd (preprocess_input num identity_scaler sample_columns
                            edge_records)))
    = Some (CatCol age_labels ages) /\
    nth_error ages 0 = Some (Some "21-28") /\
    nth_error ages 1 = Some (Some "54-61").
Proof.
  destruct (pipeline_bins_half_open num identity_scaler sample_columns
              edge_records edge_records_batch holds_edge_records)
    as [ages [tenures [salaries [[Hcut _] [[Hcol _] Hcells]]]]].
  exists ages. split; [exact Hcut|]. split; [exact Hcol|]. split.
  - destruct (Hcells 0%nat 21%Q) as [Hage _].
    apply (Hage eq_refl). split; vm_compute; [discriminate | reflexivity].
  - destruct (Hcells 1%nat 61%Q) as [Hage _].
    apply (Hage eq_refl). split; vm_compute; [discriminate | reflexivity].
Defined.
